(** * pdf-parser: a shallow embedding of [main.py]

    The program opens a PDF with pdfplumber, reads the text of its pages
    (falling back to OCR through pytesseract), and prints a report.  The
    two external libraries, the file system and the terminal are not part
    of the program: they appear here as a [World] of fallible operations
    and as a trace of observable events. *)

From Stdlib Require Import Bool Ascii String DecimalString.
From Stdlib Require Import Arith NArith ZArith Lia List.
Import ListNotations.
Local Open Scope list_scope.

Set Implicit Arguments.

(** ** Python values *)

Module Py.

(** A Python [str] is a sequence of Unicode code points. *)
Definition str := list N.

(** An ASCII literal of the source as a [str]. *)
Definition lit (s : string) : str := map N_of_ascii (list_ascii_of_string s).

Definition nl : str := [10%N].

(** [str(n)] / [f"{n}"] for a non-negative [int]. *)
Definition of_nat (n : nat) : str := lit (NilEmpty.string_of_uint (Nat.to_uint n)).

(** [c.isspace()] for one code point: the table of CPython's
    [_PyUnicode_IsWhitespace]. *)
Definition isspace (c : N) : bool :=
  ((9 <=? c) && (c <=? 13) || (28 <=? c) && (c <=? 32)
   || (c =? 133) || (c =? 160) || (c =? 5760)
   || (8192 <=? c) && (c <=? 8202)
   || (c =? 8232) || (c =? 8233) || (c =? 8239) || (c =? 8287)
   || (c =? 12288))%N.

Fixpoint lstrip (s : str) : str :=
  match s with
  | c :: s' => if isspace c then lstrip s' else s
  | [] => []
  end.

Definition rstrip (s : str) : str := rev (lstrip (rev s)).

(** [s.strip()] *)
Definition strip (s : str) : str := rstrip (lstrip s).

(** Truth value of a [str], of a [list], and of [None]-or-[str]. *)
Definition truthy (s : str) : bool :=
  match s with [] => false | _ :: _ => true end.

Definition truthy_list {A} (l : list A) : bool :=
  match l with [] => false | _ :: _ => true end.

Definition truthy_opt (o : option str) : bool :=
  match o with Some s => truthy s | None => false end.

(** [o or ''] *)
Definition or_empty (o : option str) : str :=
  match o with
  | Some s => if truthy s then s else []
  | None => []
  end.

(** [s[i:j]] for [0 <= i <= j]. *)
Definition slice {A} (s : list A) (i j : nat) : list A := firstn (j - i) (skipn i s).

(** [range(start, stop, step)] for [step > 0]: its length is
    [ceil((stop - start) / step)] and its [k]-th element [start + k * step]. *)
Definition range (start stop step : nat) : list nat :=
  map (fun k => start + k * step) (seq 0 ((stop - start + (step - 1)) / step)).

(** [enumerate(xs, start)] *)
Definition enumerate {A} (xs : list A) (start : nat) : list (nat * A) :=
  combine (seq start (length xs)) xs.

(** [c * n] for a one-character string [c]. *)
Definition times (c : string) (n : nat) : str := concat (repeat (lit c) n).

End Py.

(** ** Exceptions, events and the monad of effects

    The libraries fail by raising exceptions derived from [Exception];
    signals outside that class ([KeyboardInterrupt] and the like) are not
    modelled, and neither are failures of the writes to the terminal. *)

(** What [except Exception as e] sees of an exception: its class and [str(e)]. *)
Record ExcInfo := { exc_class : string; exc_str : Py.str }.

Inductive PyExc :=
| Exception (e : ExcInfo)      (* an instance of [Exception] or of a subclass *)
| SystemExit (code : Z).       (* raised by [sys.exit]; not an [Exception] *)

(** A rasterised page ([page.to_image().original]) and an object of a
    page's layout (an entry of [page.chars] or [page.images]). Only their
    identity matters. *)
Inductive PILImage := pil_image (id : nat).
Inductive PdfObject := pdf_object (id : nat).

Inductive Event :=
| EvOpen (path : Py.str)                     (* [pdfplumber.open] succeeded *)
| EvClose (path : Py.str)                    (* the [with] block released it *)
| EvToImage (page_num : nat)                 (* [page.to_image()] called *)
| EvOcr (image : PILImage) (lang : Py.str)   (* [pytesseract.image_to_string] called *)
| EvLibRaise (e : ExcInfo)                   (* a library call raised [e] *)
| EvStdout (s : Py.str)                      (* text written to [sys.stdout] *)
| EvStderr (s : Py.str).                     (* text written to [sys.stderr] *)

Inductive Outcome (A : Type) :=
| Returned (a : A)
| Raised (e : PyExc).
Arguments Raised {A} e.

(** A computation: the events it produced and how it ended. *)
Definition M (A : Type) : Type := (list Event * Outcome A)%type.

Definition ret {A} (a : A) : M A := ([], Returned a).

Definition bind {A B} (m : M A) (f : A -> M B) : M B :=
  match m with
  | (t, Returned a) => let (t', r) := f a in (t ++ t', r)
  | (t, Raised e) => (t, Raised e)
  end.

Declare Scope py_scope.
Delimit Scope py_scope with py.
Notation "x <- m ;; k" := (bind m (fun x => k))
  (at level 61, m at next level, right associativity) : py_scope.
Notation "' p <- m ;; k" := (bind m (fun x => match x with p => k end))
  (at level 61, p pattern, m at next level, right associativity) : py_scope.
Notation "m ;; k" := (bind m (fun _ => k))
  (at level 61, right associativity) : py_scope.
Local Open Scope py_scope.

Definition emit (ev : Event) : M unit := ([ev], Returned tt).

Definition raise {A} (e : PyExc) : M A := ([], Raised e).

(** The result of a call into a library, and the call itself. *)
Inductive LibResult (A : Type) :=
| Ok (a : A)
| Err (e : ExcInfo).
Arguments Err {A} e.

Definition call {A} (r : LibResult A) : M A :=
  match r with
  | Ok a => ret a
  | Err e => ([EvLibRaise e], Raised (Exception e))
  end.

(** [try: m  except Exception as e: h e] *)
Definition try_except {A} (m : M A) (h : ExcInfo -> M A) : M A :=
  match m with
  | (t, Raised (Exception e)) => let (t', r) := h e in (t ++ t', r)
  | _ => m
  end.

(** [try: m  finally: f] *)
Definition finally {A} (m : M A) (f : M unit) : M A :=
  let (t, r) := m in
  match f with
  | (t', Returned _) => (t ++ t', r)
  | (t', Raised e) => (t ++ t', Raised e)
  end.

(** [print(s)] and [print(s, file=sys.stderr)] *)
Definition print (s : Py.str) : M unit := emit (EvStdout (s ++ Py.nl)).
Definition print_stderr (s : Py.str) : M unit := emit (EvStderr (s ++ Py.nl)).

(** A [for] loop over a list with loop-carried state; the body says
    whether it reached its end ([Continue]) or a [break]. *)
Inductive Ctl := Continue | Break.

Fixpoint for_each {A S} (body : A -> S -> M (S * Ctl)) (xs : list A) (s : S) : M S :=
  match xs with
  | [] => ret s
  | x :: xs' =>
      '(s', c) <- body x s ;;
      match c with
      | Break => ret s'
      | Continue => for_each body xs' s'
      end
  end.

(** ** The world outside the program *)

Record Page := {
  extract_text : LibResult (option Py.str);   (* [page.extract_text()]: [None] or a [str] *)
  images : LibResult (list PdfObject);        (* [page.images] *)
  chars : LibResult (list PdfObject);         (* [page.chars] *)
  to_image_original : LibResult PILImage      (* [page.to_image().original] *)
}.

Record PDF := { pages : LibResult (list Page) }.   (* [pdf.pages] *)

Record World := {
  pdfplumber_open : Py.str -> LibResult PDF;
  image_to_string : PILImage -> Py.str -> LibResult Py.str;
  stdin_line : LibResult Py.str               (* what [input()] reads, or [EOFError] *)
}.

(** [with pdfplumber.open(path) as pdf: body pdf] *)
Definition with_open {A} (w : World) (path : Py.str) (body : PDF -> M A) : M A :=
  pdf <- call (pdfplumber_open w path) ;;
  emit (EvOpen path) ;;
  finally (body pdf) (emit (EvClose path)).

(** [input(prompt)] *)
Definition input (w : World) (prompt : Py.str) : M Py.str :=
  emit (EvStdout prompt) ;;
  call (stdin_line w).

(** ** [extract_pdf_info] *)

(** The dictionary that [extract_pdf_info] returns. *)
Record PdfInfo := { text : list Py.str; num_pages : nat; has_images : bool }.

(** The body of the loop over [enumerate(pdf.pages, 1)]; the loop carries
    the locals [text] and [has_images]. *)
Definition page_body (w : World) (item : nat * Page) (st : list Py.str * bool)
  : M ((list Py.str * bool) * Ctl) :=
  let '(page_num, page) := item in
  let '(text, has_images) := st in
  page_text <- call (extract_text page) ;;
  use_ocr <- (if Py.truthy_opt page_text then ret false
              else imgs <- call (images page) ;; ret (Py.truthy_list imgs)) ;;
  '(has_images, page_text) <-
     (if use_ocr : bool then
        emit (EvToImage page_num) ;;
        image <- call (to_image_original page) ;;
        emit (EvOcr image (Py.lit "jpn")) ;;
        ocr_text <- call (image_to_string w image (Py.lit "jpn")) ;;
        ret (true, Some ocr_text)
      else ret (has_images, page_text)) ;;
  print (Py.nl ++ Py.lit "Debug - Page " ++ Py.of_nat page_num
           ++ Py.lit " text length: " ++ Py.of_nat (length (Py.or_empty page_text))) ;;
  print (Py.lit "Debug - First 100 chars of page " ++ Py.of_nat page_num
           ++ Py.lit " text: "
           ++ (if Py.truthy_opt page_text
               then Py.slice (Py.or_empty page_text) 0 100
               else Py.lit "No text")) ;;
  let text := text ++ [Py.or_empty page_text] in
  cs <- call (chars page) ;;
  print (Py.lit "Page " ++ Py.of_nat page_num ++ Py.lit " char count: "
           ++ Py.of_nat (length cs)) ;;
  imgs <- call (images page) ;;
  print (Py.lit "Page " ++ Py.of_nat page_num ++ Py.lit " image count: "
           ++ Py.of_nat (length imgs)) ;;
  ret ((text, has_images), Break).

Definition extract_pdf_info (w : World) (pdf_path : Py.str) : M PdfInfo :=
  try_except
    (with_open w pdf_path (fun pdf =>
       ps <- call (pages pdf) ;;
       '(text, has_images) <- for_each (page_body w) (Py.enumerate ps 1) ([], false) ;;
       ps' <- call (pages pdf) ;;
       ret {| text := text; num_pages := length ps'; has_images := has_images |}))
    (fun e =>
       raise (Exception {| exc_class := "Exception";
                           exc_str := Py.lit "Error extracting PDF info: " ++ exc_str e |})).

(** ** [print_pdf_info] *)

Definition CHUNK : nat := 1000.

(** [[page_text[i:i+size] for i in range(0, len(page_text), size)]] *)
Definition chunks_of (size : nat) (page_text : Py.str) : list Py.str :=
  map (fun i => Py.slice page_text i (i + size)) (Py.range 0 (length page_text) size).

Definition chunks (page_text : Py.str) : list Py.str := chunks_of CHUNK page_text.

Definition print_chunk (chunk : Py.str) (_ : unit) : M (unit * Ctl) :=
  print chunk ;;
  print (Py.times "-" 80) ;;
  ret (tt, Continue).

(** The body of the loop over [enumerate(pdf_info['text'], 1)]. *)
Definition print_page (item : nat * Py.str) (_ : unit) : M (unit * Ctl) :=
  let '(page_num, page_text) := item in
  (if Py.truthy (Py.strip page_text) then
     print (Py.nl ++ Py.lit "Page " ++ Py.of_nat page_num ++ Py.lit ":") ;;
     for_each print_chunk (chunks page_text) tt ;;
     print (Py.times "=" 80)
   else ret tt) ;;
  ret (tt, Continue).

Definition print_pdf_info (pdf_info : PdfInfo) : M unit :=
  print (Py.lit "Number of pages: " ++ Py.of_nat (num_pages pdf_info)) ;;
  (if has_images pdf_info then
     print (Py.nl ++ Py.lit "Note: This PDF contains images and OCR was used to extract text")
   else ret tt) ;;
  print (Py.nl ++ Py.lit "Text content:") ;;
  for_each print_page (Py.enumerate (text pdf_info) 1) tt.

(** ** [main] *)

(** [main] after [parser.parse_args()]: [pdf_file] is [args.pdf_file],
    the optional positional argument. *)
Definition main (w : World) (pdf_file : option Py.str) : M unit :=
  try_except
    (pdf_file <- match pdf_file with
                 | None => input w (Py.lit "Enter PDF file path: ")
                 | Some p => ret p
                 end ;;
     pdf_info <- extract_pdf_info w pdf_file ;;
     print_pdf_info pdf_info)
    (fun e =>
       print_stderr (Py.lit "Error: " ++ exc_str e) ;;
       raise (SystemExit 1)).

(** The status with which the interpreter exits after running [main()]. *)
Definition exit_status {A} (m : M A) : Z :=
  match snd m with
  | Returned _ => 0
  | Raised (SystemExit code) => code
  | Raised (Exception _) => 1
  end.

(** ** Observations on a trace *)

Definition stdout_of (t : list Event) : Py.str :=
  flat_map (fun ev => match ev with EvStdout s => s | _ => [] end) t.

Definition stderr_writes (t : list Event) : list Py.str :=
  flat_map (fun ev => match ev with EvStderr s => [s] | _ => [] end) t.

Definition is_ocr_event (ev : Event) : bool :=
  match ev with EvToImage _ | EvOcr _ _ => true | _ => false end.

(** The exception that the handler of [extract_pdf_info] raises for a cause. *)
Definition wrapped (cause : ExcInfo) : PyExc :=
  Exception {| exc_class := "Exception";
               exc_str := Py.lit "Error extracting PDF info: " ++ exc_str cause |}.

(** The conditions of the OCR fallback, in the words of the specification:
    the native text is missing when it is [None] or has length zero ... *)
Definition native_text_missing (p : Page) : Prop :=
  extract_text p = Ok None \/ extract_text p = Ok (Some []).

(** ... or, read with trimming, when nothing is left of it after [strip()]; *)
Definition native_text_blank (p : Page) : Prop :=
  extract_text p = Ok None \/
  exists t, extract_text p = Ok (Some t) /\ Py.strip t = [].

(** and the page contains raster images. *)
Definition has_raster_images (p : Page) : Prop :=
  exists i l, images p = Ok (i :: l).

(** The fallback is invoked in a run when the page is rasterised for OCR. *)
Definition ocr_fallback_invoked (page_num : nat) (t : list Event) : Prop :=
  In (EvToImage page_num) t.

(** The lines of the report, as events on standard output. *)
Definition page_header (page_num : nat) : Event :=
  EvStdout ((Py.nl ++ Py.lit "Page " ++ Py.of_nat page_num ++ Py.lit ":") ++ Py.nl).

Definition chunk_separator : Event := EvStdout (Py.times "-" 80 ++ Py.nl).

Definition page_separator : Event := EvStdout (Py.times "=" 80 ++ Py.nl).

Definition chunk_lines (chunk : Py.str) : list Event :=
  [EvStdout (chunk ++ Py.nl); chunk_separator].

(** What the loop body of the report prints for one page. *)
Definition page_report (item : nat * Py.str) : list Event :=
  if Py.truthy (Py.strip (snd item))
  then page_header (fst item) :: flat_map chunk_lines (chunks (snd item)) ++ [page_separator]
  else [].

(** The line that [main] writes to standard error for a cause. *)
Definition error_line (cause : ExcInfo) : Py.str :=
  (Py.lit "Error: " ++ Py.lit "Error extracting PDF info: " ++ exc_str cause) ++ Py.nl.

(** ** Sample documents *)

Definition FileNotFoundError : ExcInfo :=
  {| exc_class := "FileNotFoundError";
     exc_str := Py.lit "[Errno 2] No such file or directory: 'missing.pdf'" |}.

Definition EOFError : ExcInfo :=
  {| exc_class := "EOFError"; exc_str := Py.lit "EOF when reading a line" |}.

Definition PDFSyntaxError : ExcInfo :=
  {| exc_class := "PDFSyntaxError"; exc_str := Py.lit "No /Root object! - Is this really a PDF?" |}.

Definition TesseractNotFoundError : ExcInfo :=
  {| exc_class := "TesseractNotFoundError";
     exc_str := Py.lit "tesseract is not installed or it's not in your PATH." |}.

(** A page with an embedded text layer and no image. *)
Definition text_page (t : Py.str) : Page :=
  {| extract_text := Ok (Some t);
     images := Ok [];
     chars := Ok (map pdf_object (seq 0 (length t)));
     to_image_original := Ok (pil_image 0) |}.

(** A scanned page: no text layer, one image covering the page. *)
Definition scanned_page : Page :=
  {| extract_text := Ok None;
     images := Ok [pdf_object 0];
     chars := Ok [];
     to_image_original := Ok (pil_image 1) |}.

(** A scanned page whose text layer holds a single space. *)
Definition scanned_page_with_space : Page :=
  {| extract_text := Ok (Some (Py.lit " "));
     images := Ok [pdf_object 0];
     chars := Ok [pdf_object 1];
     to_image_original := Ok (pil_image 1) |}.

(** An empty page: no text layer and no image. *)
Definition empty_page : Page :=
  {| extract_text := Ok None;
     images := Ok [];
     chars := Ok [];
     to_image_original := Ok (pil_image 2) |}.

(** A world in which every path opens the document [doc] and in which
    the OCR engine answers [ocr] for every image. *)
Definition world_of (doc : list Page) (ocr : LibResult Py.str) : World :=
  {| pdfplumber_open := fun _ => Ok {| pages := Ok doc |};
     image_to_string := fun _ _ => ocr;
     stdin_line := Err EOFError |}.

(** A world without the file, and one whose file is not a PDF. *)
Definition world_missing : World :=
  {| pdfplumber_open := fun _ => Err FileNotFoundError;
     image_to_string := fun _ _ => Ok [];
     stdin_line := Err EOFError |}.

Definition world_corrupt : World :=
  {| pdfplumber_open := fun _ => Ok {| pages := Err PDFSyntaxError |};
     image_to_string := fun _ _ => Ok [];
     stdin_line := Err EOFError |}.

Definition two_text_pages : list Page :=
  [text_page (Py.lit "A"); text_page (Py.lit "B")].

Definition scan_then_text : list Page :=
  [scanned_page; text_page (Py.lit "B"); text_page (Py.lit "C")].

(** Three pages of text of which the second holds a space, a line feed
    and an ideographic space; and the text of a page of 2500 characters. *)
Definition blank_text : Py.str := [32%N; 10%N; 12288%N].

Definition three_texts : list Py.str := [Py.lit "first"; blank_text; Py.lit "third"].

Definition long_text : Py.str := repeat 97%N 2500.

Definition scan_result : PdfInfo :=
  {| text := [Py.lit "scan"]; num_pages := 3; has_images := true |}.

(** ** Further observations and samples *)

Definition stdout_writes (t : list Event) : list Py.str :=
  flat_map (fun ev => match ev with EvStdout s => [s] | _ => [] end) t.

Definition ocr_calls (t : list Event) : list (PILImage * Py.str) :=
  flat_map (fun ev => match ev with EvOcr i l => [(i, l)] | _ => [] end) t.

Definition rasterised (t : list Event) : list nat :=
  flat_map (fun ev => match ev with EvToImage n => [n] | _ => [] end) t.

Definition lib_errors (t : list Event) : list ExcInfo :=
  flat_map (fun ev => match ev with EvLibRaise e => [e] | _ => [] end) t.

Definition is_open_close (ev : Event) : bool :=
  match ev with EvOpen _ | EvClose _ => true | _ => false end.

(** The arguments of the four diagnostic [print] calls of the loop body,
    for a page whose recorded entry is [entry]. *)
Definition debug_lines (page_num : nat) (entry : Py.str) (n_chars n_images : nat)
  : list Py.str :=
  [ Py.nl ++ Py.lit "Debug - Page " ++ Py.of_nat page_num
      ++ Py.lit " text length: " ++ Py.of_nat (length entry);
    Py.lit "Debug - First 100 chars of page " ++ Py.of_nat page_num
      ++ Py.lit " text: "
      ++ (if Py.truthy entry then Py.slice entry 0 100 else Py.lit "No text");
    Py.lit "Page " ++ Py.of_nat page_num ++ Py.lit " char count: " ++ Py.of_nat n_chars;
    Py.lit "Page " ++ Py.of_nat page_num ++ Py.lit " image count: "
      ++ Py.of_nat n_images ].

(** The lines of the report that come before the pages. *)
Definition report_preamble (r : PdfInfo) : list Event :=
  EvStdout ((Py.lit "Number of pages: " ++ Py.of_nat (num_pages r)) ++ Py.nl)
  :: (if has_images r
      then [EvStdout ((Py.nl ++ Py.lit
              "Note: This PDF contains images and OCR was used to extract text")
              ++ Py.nl)]
      else [])
  ++ [EvStdout ((Py.nl ++ Py.lit "Text content:") ++ Py.nl)].

(** The block of the report for a numbered page, and the pages that get
    one: those with a character that is not whitespace. *)
Definition page_block (item : nat * Py.str) : list Event :=
  page_header (fst item) :: flat_map chunk_lines (chunks (snd item)) ++ [page_separator].

Definition has_content (item : nat * Py.str) : bool :=
  negb (forallb Py.isspace (snd item)).

(** What [input] writes before it reads. *)
Definition prompt_event : Event := EvStdout (Py.lit "Enter PDF file path: ").

(** A page with a text layer and an image on it. *)
Definition illustrated_page (t : Py.str) : Page :=
  {| extract_text := Ok (Some t);
     images := Ok [pdf_object 0];
     chars := Ok (map pdf_object (seq 1 (length t)));
     to_image_original := Ok (pil_image 3) |}.


(** A page on which every library call fails. *)
Definition broken_page : Page :=
  {| extract_text := Err PDFSyntaxError;
     images := Err PDFSyntaxError;
     chars := Err PDFSyntaxError;
     to_image_original := Err PDFSyntaxError |}.


(** * Properties *)

Arguments Py.lit : simpl never.
Arguments Py.of_nat : simpl never.
Arguments Py.times : simpl never.
Arguments Py.slice : simpl never.

Ltac run_def :=
  unfold page_body, with_open, finally, try_except, input, call, bind, ret, emit,
    print, print_stderr, raise.

(** Case analysis on the library results that the loop body inspects on
    page [p], in the order in which it inspects them. *)
Ltac page_cases w p :=
  destruct (extract_text p) as [[[|? ?]|]|?] eqn:Etext; simpl;
  destruct (images p) as [[|? ?]|?] eqn:Eimages; simpl;
  destruct (to_image_original p) as [?|?] eqn:Eraster; simpl;
  try match goal with
      | |- context [image_to_string w ?i ?l] =>
          destruct (image_to_string w i l) as [?|?] eqn:Eocr; simpl
      end;
  destruct (chars p) as [?|?] eqn:Echars; simpl.

(** Case analysis on a hypothesis [In ev t] for an explicit trace [t],
    dropping the events of another kind than [ev]. *)
Ltac in_trace H :=
  simpl in H;
  repeat match type of H with
         | _ \/ _ => destruct H as [H|H]; [try discriminate H|]
         end;
  try contradiction.

Section Helpers.

Lemma enumerate_cons {A} (x : A) (xs : list A) (n : nat) :
  Py.enumerate (x :: xs) n = (n, x) :: Py.enumerate xs (S n).
Proof. reflexivity. Qed.

Lemma enumerate_app {A} (xs ys : list A) (n : nat) :
  Py.enumerate (xs ++ ys) n = Py.enumerate xs n ++ Py.enumerate ys (n + length xs).
Proof.
  revert n; induction xs as [|x xs IH]; intro n; simpl.
  - now rewrite Nat.add_0_r.
  - rewrite !enumerate_cons, IH. simpl. now rewrite Nat.add_succ_r.
Qed.

(** Every path through the loop body that reaches its end reaches the [break]. *)
Lemma page_body_breaks w item st t st' c :
  page_body w item st = (t, Returned (st', c)) -> c = Break.
Proof.
  destruct item as [n p], st as [txt flag].
  run_def. page_cases w p; intro H; inversion H; reflexivity.
Qed.

(** Hence the loop runs its body once, on the first item only. *)
Lemma for_each_page_body w x xs st :
  for_each (page_body w) (x :: xs) st =
  ('(st', _) <- page_body w x st ;; ret st').
Proof.
  simpl. destruct (page_body w x st) as [t [[st' c]|e]] eqn:E; [|reflexivity].
  apply page_body_breaks in E. subst c. reflexivity.
Qed.

(** The run of [extract_pdf_info] on a document with a first page, in
    terms of the loop body on that page. *)
Lemma extract_pdf_info_first_page w path pdf p rest :
  pdfplumber_open w path = Ok pdf ->
  pages pdf = Ok (p :: rest) ->
  extract_pdf_info w path =
  match page_body w (1, p) ([], false) with
  | (t, Returned ((txt, flag), _)) =>
      (EvOpen path :: t ++ [EvClose path],
       Returned {| text := txt; num_pages := S (length rest); has_images := flag |})
  | (t, Raised (Exception e)) =>
      (EvOpen path :: t ++ [EvClose path], Raised (wrapped e))
  | (t, Raised (SystemExit c)) =>
      (EvOpen path :: t ++ [EvClose path], Raised (SystemExit c))
  end.
Proof.
  intros Hopen Hpages.
  unfold extract_pdf_info, with_open.
  rewrite Hopen. cbn [call bind ret emit]. rewrite Hpages.
  cbn [call bind ret emit]. rewrite enumerate_cons.
  rewrite for_each_page_body.
  destruct (page_body w (1, p) ([], false)) as [t [[[txt flag] c]|[e|c]]];
    unfold finally, try_except, call, bind, ret, emit, raise; simpl.
  all: rewrite ?app_nil_r; try reflexivity.
Qed.

(** In the loop body a library call that raises ends the body with that
    very exception, and the body ends in no other exception. *)
Lemma page_body_lib_raise w item st c :
  In (EvLibRaise c) (fst (page_body w item st)) ->
  snd (page_body w item st) = Raised (Exception c).
Proof.
  destruct item as [n p], st as [txt flag]. run_def.
  page_cases w p; intros H;
    repeat (destruct H as [H|H]; [try discriminate H|]); try contradiction;
    inversion H; reflexivity.
Qed.

Lemma page_body_raised w item st e :
  snd (page_body w item st) = Raised e ->
  exists c, e = Exception c /\ In (EvLibRaise c) (fst (page_body w item st)).
Proof.
  destruct item as [n p], st as [txt flag]. run_def.
  page_cases w p; intros H; inversion H; eexists; split; try reflexivity;
    simpl; auto 10.
Qed.

(** The same two facts for the whole of [extract_pdf_info], whose handler
    wraps the exception. *)
Lemma extract_pdf_info_lib_raise w path c :
  In (EvLibRaise c) (fst (extract_pdf_info w path)) ->
  snd (extract_pdf_info w path) = Raised (wrapped c).
Proof.
  destruct (pdfplumber_open w path) as [pdf|e] eqn:Hopen.
  - destruct (pages pdf) as [[|p rest]|e] eqn:Hpages.
    + unfold extract_pdf_info, with_open. rewrite Hopen.
      cbn [call bind ret emit]. rewrite Hpages. simpl.
      intros [H|[H|H]]; try discriminate H; contradiction.
    + rewrite (extract_pdf_info_first_page w path Hopen Hpages).
      pose proof (@page_body_lib_raise w (1, p) ([], false) c) as Hb.
      destruct (page_body w (1, p) ([], false)) as [t [[[txt flag] k]|[e|k]]];
        simpl in *; rewrite in_app_iff; simpl;
        intros [H|[H|[H|H]]]; try discriminate H; try contradiction;
        specialize (Hb H); inversion Hb; reflexivity.
    + unfold extract_pdf_info, with_open. rewrite Hopen.
      cbn [call bind ret emit]. rewrite Hpages. simpl.
      intros [H|[H|[H|H]]]; try discriminate H; try contradiction.
      inversion H; reflexivity.
  - unfold extract_pdf_info, with_open. rewrite Hopen. simpl.
    intros [H|H]; [|contradiction]. inversion H; reflexivity.
Qed.

Lemma extract_pdf_info_raised w path e :
  snd (extract_pdf_info w path) = Raised e ->
  exists c, e = wrapped c /\ In (EvLibRaise c) (fst (extract_pdf_info w path)).
Proof.
  destruct (pdfplumber_open w path) as [pdf|e0] eqn:Hopen.
  - destruct (pages pdf) as [[|p rest]|e0] eqn:Hpages.
    + unfold extract_pdf_info, with_open. rewrite Hopen.
      cbn [call bind ret emit]. rewrite Hpages. simpl. discriminate.
    + rewrite (extract_pdf_info_first_page w path Hopen Hpages).
      pose proof (@page_body_raised w (1, p) ([], false)) as Hb.
      destruct (page_body w (1, p) ([], false)) as [t [[[txt flag] k]|[e1|k]]];
        simpl in *; intros H; try discriminate H.
      * destruct (Hb _ eq_refl) as (c & Hc & Hin). inversion Hc; subst c.
        inversion H. exists e1. split; [reflexivity|].
        right. rewrite in_app_iff. now left.
      * destruct (Hb _ eq_refl) as (c & Hc & _). discriminate Hc.
    + unfold extract_pdf_info, with_open. rewrite Hopen.
      cbn [call bind ret emit]. rewrite Hpages. simpl.
      intros H; inversion H. exists e0. split; [reflexivity|]. simpl; auto.
  - unfold extract_pdf_info, with_open. rewrite Hopen. simpl.
    intros H; inversion H. exists e0. split; [reflexivity|]. simpl; auto.
Qed.

End Helpers.

(** ** The extractor *)

Section Extractor.

Variable w : World.

(** What the loop body appends to [text] and does to [has_images] on a
    page with a non-empty text layer. *)
Lemma page_body_native n p txt flag t :
  extract_text p = Ok (Some t) -> t <> [] ->
  (forall ev, In ev (fst (page_body w (n, p) (txt, flag))) -> is_ocr_event ev = false) /\
  (forall st' c, snd (page_body w (n, p) (txt, flag)) = Returned (st', c) ->
     st' = (txt ++ [t], flag)).
Proof.
  intros Ht Hne. run_def. rewrite Ht. destruct t as [|ch t]; [congruence|]. simpl.
  destruct (chars p); simpl; [destruct (images p); simpl|]; split.
  all: try (intros ev H; simpl in H;
            repeat match type of H with
                   | _ \/ _ => destruct H as [<-|H]; [reflexivity|]
                   end;
            contradiction).
  all: intros st' c H; inversion H; reflexivity.
Qed.

Lemma page_body_appends n p txt flag t txt' flag' c :
  page_body w (n, p) (txt, flag) = (t, Returned ((txt', flag'), c)) ->
  exists entry, txt' = txt ++ [entry].
Proof.
  run_def. page_cases w p; intros H; inversion H; eexists; reflexivity.
Qed.

(** C2. The loop over the pages ends at the [break] after the first page:
    for a document with at least one page, a returned [text] list has
    exactly one entry, the first page's text (the native text where the
    page has some), every event of the run comes from that page, and
    [num_pages] is the page count of the whole document. *)
Theorem extract_stops_after_first_page path pdf p rest r :
  pdfplumber_open w path = Ok pdf ->
  pages pdf = Ok (p :: rest) ->
  snd (extract_pdf_info w path) = Returned r ->
  length (text r) = 1 /\
  num_pages r = S (length rest) /\
  (exists tr entry,
     page_body w (1, p) ([], false) = (tr, Returned (([entry], has_images r), Break)) /\
     text r = [entry] /\
     fst (extract_pdf_info w path) = EvOpen path :: tr ++ [EvClose path]) /\
  (forall t, extract_text p = Ok (Some t) -> t <> [] -> text r = [t]).
Proof.
  intros Hopen Hpages. rewrite (extract_pdf_info_first_page w path Hopen Hpages).
  destruct (page_body w (1, p) ([], false)) as [tr [[[txt flag] c]|[e|c]]] eqn:E;
    simpl; intros H; inversion H; subst r; clear H; simpl.
  pose proof (page_body_breaks _ _ _ E); subst c.
  destruct (page_body_appends _ _ _ _ E) as [entry ->]. simpl.
  repeat split.
  - exists tr, entry. repeat split.
  - intros t Ht Hne.
    destruct (page_body_native 1 p [] false Ht Hne) as [_ Hn].
    rewrite E in Hn. specialize (Hn _ _ eq_refl). inversion Hn; reflexivity.
Qed.

(** C3. A library call that raises while the document is opened, parsed
    or OCR-processed makes [extract_pdf_info] raise the one exception
    that wraps the cause; nothing is returned in that case, and a run
    that returns has seen no library call raise. *)
Theorem extract_pdf_info_fails_atomically path cause :
  In (EvLibRaise cause) (fst (extract_pdf_info w path)) ->
  snd (extract_pdf_info w path) = Raised (wrapped cause) /\
  (forall r, snd (extract_pdf_info w path) <> Returned r) /\
  (forall c', In (EvLibRaise c') (fst (extract_pdf_info w path)) ->
              exc_str c' = exc_str cause).
Proof.
  intros H. pose proof (extract_pdf_info_lib_raise _ _ _ H) as Hr.
  split; [exact Hr|split].
  - intros r Hret. rewrite Hret in Hr. discriminate Hr.
  - intros c' H'. apply extract_pdf_info_lib_raise in H'.
    rewrite Hr in H'. injection H' as Heq.
    first [now apply app_inv_head in Heq | now symmetry].
Qed.

(** C10. Whatever [extract_pdf_info] raises is an exception of class
    [Exception] itself whose message is ['Error extracting PDF info: ']
    followed by [str] of the cause, a library exception of the run; the
    class of the cause does not appear in it. *)
Theorem extract_pdf_info_raises_plain_Exception path e :
  snd (extract_pdf_info w path) = Raised e ->
  exists cause,
    In (EvLibRaise cause) (fst (extract_pdf_info w path)) /\
    e = Exception {| exc_class := "Exception";
                     exc_str := Py.lit "Error extracting PDF info: " ++ exc_str cause |}.
Proof.
  intros H. destruct (extract_pdf_info_raised _ _ H) as (c & -> & Hin).
  exists c. split; [assumption|reflexivity].
Qed.

(** The [with] block releases the document however its body ends. *)
Lemma extract_pdf_info_closes path :
  In (EvOpen path) (fst (extract_pdf_info w path)) ->
  In (EvClose path) (fst (extract_pdf_info w path)).
Proof.
  destruct (pdfplumber_open w path) as [pdf|e] eqn:Hopen.
  - intros _. destruct (pages pdf) as [[|p rest]|e] eqn:Hpages.
    + unfold extract_pdf_info, with_open. rewrite Hopen.
      cbn [call bind ret emit]. rewrite Hpages. simpl. auto.
    + rewrite (extract_pdf_info_first_page w path Hopen Hpages).
      destruct (page_body w (1, p) ([], false)) as [t [[[txt flag] k]|[e|k]]];
        simpl; right; apply in_or_app; right; simpl; auto.
    + unfold extract_pdf_info, with_open. rewrite Hopen.
      cbn [call bind ret emit]. rewrite Hpages. simpl. auto.
  - unfold extract_pdf_info, with_open. rewrite Hopen. simpl.
    intros [H|H]; [discriminate H|contradiction].
Qed.

End Extractor.

(** C1. On a document of two pages that both carry embedded text,
    [extract_pdf_info] returns a [text] list with the first page's text
    only, although [num_pages] is 2. *)
Theorem extract_two_text_pages :
  snd (extract_pdf_info (world_of two_text_pages (Ok [])) (Py.lit "two.pdf"))
  = Returned {| text := [Py.lit "A"]; num_pages := 2; has_images := false |}.
Proof. reflexivity. Qed.

(** A scanned page followed by two pages of text: one entry, three pages. *)
Lemma extract_stops_after_first_page_witness :
  snd (extract_pdf_info (world_of scan_then_text (Ok (Py.lit "scan"))) (Py.lit "doc.pdf"))
  = Returned scan_result /\
  length (text scan_result) = 1 /\ num_pages scan_result = 3.
Proof.
  split; [reflexivity|].
  destruct (@extract_stops_after_first_page
              (world_of scan_then_text (Ok (Py.lit "scan"))) (Py.lit "doc.pdf")
              {| pages := Ok scan_then_text |} scanned_page
              [text_page (Py.lit "B"); text_page (Py.lit "C")] scan_result
              eq_refl eq_refl eq_refl) as (H1 & H2 & _).
  split; assumption.
Defined.

(** A missing file, a file that is not a PDF, and an OCR engine that is
    not installed. *)
Lemma extract_pdf_info_fails_atomically_witness :
  snd (extract_pdf_info world_missing (Py.lit "missing.pdf"))
  = Raised (wrapped FileNotFoundError) /\
  snd (extract_pdf_info world_corrupt (Py.lit "notes.txt"))
  = Raised (wrapped PDFSyntaxError) /\
  snd (extract_pdf_info (world_of [scanned_page] (Err TesseractNotFoundError))
         (Py.lit "scan.pdf")) = Raised (wrapped TesseractNotFoundError).
Proof.
  split; [|split].
  - apply (@extract_pdf_info_fails_atomically world_missing (Py.lit "missing.pdf")
             FileNotFoundError).
    simpl. auto.
  - apply (@extract_pdf_info_fails_atomically world_corrupt (Py.lit "notes.txt")
             PDFSyntaxError).
    simpl. auto.
  - apply (@extract_pdf_info_fails_atomically
             (world_of [scanned_page] (Err TesseractNotFoundError)) (Py.lit "scan.pdf")
             TesseractNotFoundError).
    simpl. auto.
Defined.

(** A missing file: the [FileNotFoundError] comes out as an [Exception]. *)
Lemma extract_pdf_info_raises_plain_Exception_witness :
  exists cause,
    In (EvLibRaise cause) (fst (extract_pdf_info world_missing (Py.lit "missing.pdf"))) /\
    wrapped FileNotFoundError =
    Exception {| exc_class := "Exception";
                 exc_str := Py.lit "Error extracting PDF info: " ++ exc_str cause |}.
Proof.
  apply (@extract_pdf_info_raises_plain_Exception world_missing (Py.lit "missing.pdf")
           (wrapped FileNotFoundError)).
  reflexivity.
Defined.

(** ** The OCR fallback *)

Section OcrFallback.

Variable w : World.

(** C4, as the code has it. On a processed page the OCR fallback is
    invoked if and only if the native text is [None] or of length zero,
    without any trimming, and the page has images.  When it is invoked
    the page is rasterised and the bitmap is given to the OCR engine with
    the language ['jpn'], and a body that reaches its end has set
    [has_images].  A page whose native text is not empty, whatever that
    text is, never reaches OCR: its text is recorded unchanged. *)
Theorem ocr_fallback_condition n p txt flag :
  let run := page_body w (n, p) (txt, flag) in
  (ocr_fallback_invoked n (fst run) <-> native_text_missing p /\ has_raster_images p) /\
  (forall img lang, In (EvOcr img lang) (fst run) ->
     lang = Py.lit "jpn" /\ to_image_original p = Ok img /\
     ocr_fallback_invoked n (fst run)) /\
  (forall img, ocr_fallback_invoked n (fst run) -> to_image_original p = Ok img ->
     In (EvOcr img (Py.lit "jpn")) (fst run)) /\
  (forall txt' flag' c, snd run = Returned ((txt', flag'), c) ->
     ocr_fallback_invoked n (fst run) -> flag' = true) /\
  (forall t, extract_text p = Ok (Some t) -> t <> [] ->
     (forall ev, In ev (fst run) -> is_ocr_event ev = false) /\
     (forall st' c, snd run = Returned (st', c) -> st' = (txt ++ [t], flag))).
Proof.
  intro run. split; [|split; [|split; [|split]]].
  - subst run. unfold ocr_fallback_invoked, native_text_missing, has_raster_images.
    run_def. split.
    + page_cases w p; intros H; in_trace H; split; eauto.
    + intros [Hm (i & l & Hi)].
      page_cases w p; destruct Hm as [Hm|Hm]; try discriminate Hm;
        try discriminate Hi; auto.
  - subst run. unfold ocr_fallback_invoked. run_def. intros img lang.
    page_cases w p; intros H; in_trace H; inversion H; subst; auto.
  - subst run. unfold ocr_fallback_invoked. run_def. intros img.
    page_cases w p; intros H Hi; in_trace H; inversion Hi; subst; auto.
  - subst run. unfold ocr_fallback_invoked. run_def. intros txt' flag' c.
    page_cases w p; intros Hr H; in_trace H; inversion Hr; reflexivity.
  - intros t Ht Hne. exact (page_body_native w n p txt flag Ht Hne).
Qed.

(** C5. On a processed page without embedded text and without images no
    OCR takes place; if the body reaches its end, the page's entry is the
    empty string and [has_images] is what it was before the page; and the
    body does reach its end when [page.chars] can be read. *)
Theorem page_without_text_or_images n p txt flag :
  native_text_missing p ->
  images p = Ok [] ->
  (forall ev, In ev (fst (page_body w (n, p) (txt, flag))) -> is_ocr_event ev = false) /\
  (forall st' c, snd (page_body w (n, p) (txt, flag)) = Returned (st', c) ->
     st' = (txt ++ [[]], flag)) /\
  (forall cs, chars p = Ok cs ->
     snd (page_body w (n, p) (txt, flag)) = Returned ((txt ++ [[]], flag), Break)).
Proof.
  intros Hm Hi. run_def. rewrite Hi.
  destruct Hm as [-> | ->]; simpl; destruct (chars p) as [cs|e]; simpl.
  all: repeat split;
    try (intros ev H; simpl in H;
         repeat match type of H with
                | _ \/ _ => destruct H as [<-|H]; [reflexivity|]
                end; contradiction);
    try (intros st' c H; inversion H; reflexivity);
    try (intros cs' H; inversion H; reflexivity).
Qed.

(** C9. [has_images] is set before the OCR output is looked at: on a
    document whose first page has images and no native text, the result
    has [has_images = True] and the page's entry is whatever OCR gave,
    the empty string included. *)
Theorem has_images_set_before_ocr_output path pdf p rest imgs img cs ocr_text :
  pdfplumber_open w path = Ok pdf ->
  pages pdf = Ok (p :: rest) ->
  native_text_missing p ->
  images p = Ok imgs -> imgs <> [] ->
  to_image_original p = Ok img ->
  image_to_string w img (Py.lit "jpn") = Ok ocr_text ->
  chars p = Ok cs ->
  snd (extract_pdf_info w path)
  = Returned {| text := [ocr_text]; num_pages := S (length rest); has_images := true |}.
Proof.
  intros Hopen Hpages Hm Hi Hne Himg Hocr Hcs.
  rewrite (extract_pdf_info_first_page w path Hopen Hpages).
  run_def. rewrite Hi, Himg, Hcs.
  destruct imgs as [|i l]; [congruence|].
  destruct Hm as [-> | ->]; simpl; rewrite Hocr; simpl;
    destruct ocr_text; reflexivity.
Qed.

End OcrFallback.

(** C4 as the specification words it, with the text trimmed before the
    test, fails on a scanned page whose text layer is a single space:
    nothing is left of the text after [strip()] and the page has an
    image, yet the page is not rasterised. *)
Lemma ocr_not_invoked_for_whitespace_text :
  ~ (ocr_fallback_invoked 1
       (fst (page_body (world_of [scanned_page_with_space] (Ok (Py.lit "scan")))
               (1, scanned_page_with_space) ([], false)))
     <-> native_text_blank scanned_page_with_space /\
         has_raster_images scanned_page_with_space).
Proof.
  intros [_ H].
  assert (Hin : ocr_fallback_invoked 1
       (fst (page_body (world_of [scanned_page_with_space] (Ok (Py.lit "scan")))
               (1, scanned_page_with_space) ([], false)))).
  { apply H. split.
    - right. exists (Py.lit " "). split; reflexivity.
    - exists (pdf_object 0), []. reflexivity. }
  unfold ocr_fallback_invoked in Hin. simpl in Hin.
  repeat match type of Hin with
         | _ \/ _ => destruct Hin as [Hin|Hin]; [discriminate Hin|]
         end.
  exact Hin.
Qed.

(** A scanned page is rasterised; one whose text layer is a space is not. *)
Lemma ocr_fallback_condition_witness :
  ocr_fallback_invoked 1
    (fst (page_body (world_of [scanned_page] (Ok (Py.lit "scan")))
            (1, scanned_page) ([], false))) /\
  ~ ocr_fallback_invoked 1
    (fst (page_body (world_of [scanned_page_with_space] (Ok (Py.lit "scan")))
            (1, scanned_page_with_space) ([], false))).
Proof.
  split.
  - apply (ocr_fallback_condition (world_of [scanned_page] (Ok (Py.lit "scan")))
             1 scanned_page [] false).
    split; [left; reflexivity | exists (pdf_object 0), []; reflexivity].
  - intros H.
    apply (ocr_fallback_condition
             (world_of [scanned_page_with_space] (Ok (Py.lit "scan")))
             1 scanned_page_with_space [] false) in H.
    destruct H as [[H|H] _]; discriminate H.
Defined.

(** An empty page met with [has_images] already set. *)
Lemma page_without_text_or_images_witness :
  snd (page_body (world_of [empty_page] (Ok (Py.lit "scan"))) (1, empty_page) ([], true))
  = Returned (([[]], true), Break).
Proof.
  apply (proj2 (proj2 (@page_without_text_or_images
                         (world_of [empty_page] (Ok (Py.lit "scan")))
                         1 empty_page [] true (or_introl eq_refl) eq_refl)) []).
  reflexivity.
Defined.

(** A scanned page on which OCR finds nothing. *)
Lemma has_images_set_before_ocr_output_witness :
  snd (extract_pdf_info (world_of [scanned_page] (Ok [])) (Py.lit "scan.pdf"))
  = Returned {| text := [[]]; num_pages := 1; has_images := true |}.
Proof.
  apply (@has_images_set_before_ocr_output (world_of [scanned_page] (Ok []))
           (Py.lit "scan.pdf") {| pages := Ok [scanned_page] |} scanned_page []
           [pdf_object 0] (pil_image 1) [] []
           eq_refl eq_refl (or_introl eq_refl) eq_refl).
  - discriminate.
  - reflexivity.
  - reflexivity.
  - reflexivity.
Defined.

(** ** Chunks of a page's text *)

Section Chunks.

Variable c : nat.
Hypothesis c_pos : 0 < c.

Lemma firstn_add {A} (a b : nat) (l : list A) :
  firstn (a + b) l = firstn a l ++ firstn b (skipn a l).
Proof.
  revert l; induction a as [|a IH]; intros l; [reflexivity|].
  destruct l as [|x l]; simpl.
  - now rewrite firstn_nil.
  - now rewrite IH.
Qed.

Lemma range_0 (n : nat) :
  Py.range 0 n c = map (fun k => k * c) (seq 0 ((n + (c - 1)) / c)).
Proof. unfold Py.range. now rewrite Nat.sub_0_r. Qed.

Lemma ceil_bounds (n : nat) :
  n <= (n + (c - 1)) / c * c /\ ((n + (c - 1)) / c) * c < n + c.
Proof.
  pose proof (Nat.div_mod_eq (n + (c - 1)) c) as E.
  pose proof (Nat.mod_upper_bound (n + (c - 1)) c ltac:(lia)) as B.
  nia.
Qed.

Lemma concat_slices (s : Py.str) (m : nat) :
  concat (map (fun i => Py.slice s i (i + c)) (map (fun k => k * c) (seq 0 m)))
  = firstn (m * c) s.
Proof.
  induction m as [|m IH]; [reflexivity|].
  rewrite seq_S, !map_app, concat_app, IH. simpl.
  unfold Py.slice. rewrite app_nil_r.
  replace (m * c + c - m * c) with c by lia.
  replace (c + m * c) with (m * c + c) by lia.
  now rewrite firstn_add.
Qed.

Lemma chunks_concat (s : Py.str) : concat (chunks_of c s) = s.
Proof.
  unfold chunks_of. rewrite range_0, concat_slices.
  apply firstn_all2. apply (ceil_bounds (length s)).
Qed.

Lemma chunks_length (s : Py.str) :
  length (chunks_of c s) = (length s + (c - 1)) / c.
Proof. unfold chunks_of. now rewrite range_0, !length_map, length_seq. Qed.

Lemma chunks_nth (s : Py.str) (k : nat) :
  k < length (chunks_of c s) ->
  nth k (chunks_of c s) [] = Py.slice s (k * c) (k * c + c).
Proof.
  intros Hk. rewrite chunks_length in Hk. unfold chunks_of. rewrite range_0.
  rewrite map_map.
  rewrite (nth_indep _ [] (Py.slice s (0 * c) (0 * c + c)))
    by now rewrite length_map, length_seq.
  rewrite (map_nth (fun k => Py.slice s (k * c) (k * c + c))).
  now rewrite seq_nth.
Qed.

Lemma slice_length (s : Py.str) (k : nat) :
  length (Py.slice s (k * c) (k * c + c)) = Nat.min c (length s - k * c).
Proof.
  unfold Py.slice. rewrite length_firstn, length_skipn.
  now replace (k * c + c - k * c) with c by lia.
Qed.

(** Every chunk but the last one is full. *)
Lemma chunks_full (s : Py.str) (k : nat) :
  S k < length (chunks_of c s) -> length (nth k (chunks_of c s) []) = c.
Proof.
  intros Hk. rewrite chunks_nth by lia. rewrite slice_length.
  rewrite chunks_length in Hk.
  pose proof (ceil_bounds (length s)). nia.
Qed.

(** No chunk is empty and none is longer than the window. *)
Lemma chunks_bounds (s ch : Py.str) :
  In ch (chunks_of c s) -> 1 <= length ch <= c.
Proof.
  intros Hin. destruct (In_nth _ _ [] Hin) as (k & Hk & <-).
  rewrite chunks_nth by assumption. rewrite slice_length.
  rewrite chunks_length in Hk.
  pose proof (ceil_bounds (length s)). nia.
Qed.

(** A text longer than the window gives several chunks. *)
Lemma chunks_several (s : Py.str) :
  c < length s -> 2 <= length (chunks_of c s).
Proof.
  intros Hlen. rewrite chunks_length.
  pose proof (ceil_bounds (length s)). nia.
Qed.

End Chunks.

(** ** The presenter *)

Section Presenter.

Lemma lstrip_blank (s : Py.str) :
  Py.lstrip s = [] <-> forallb Py.isspace s = true.
Proof.
  induction s as [|ch s IH]; simpl; [tauto|].
  destruct (Py.isspace ch); simpl; [exact IH|].
  split; discriminate.
Qed.

Lemma lstrip_head (s : Py.str) ch r :
  Py.lstrip s = ch :: r -> Py.isspace ch = false.
Proof.
  induction s as [|x s IH]; simpl; [discriminate|].
  destruct (Py.isspace x) eqn:E; [exact IH|].
  intros H; inversion H; subst; exact E.
Qed.

(** [s.strip()] is empty exactly when [s] is empty or all whitespace. *)
Lemma strip_blank (s : Py.str) :
  Py.truthy (Py.strip s) = false <-> forallb Py.isspace s = true.
Proof.
  unfold Py.strip, Py.rstrip. split.
  - intros H. apply lstrip_blank.
    destruct (Py.lstrip s) as [|ch r] eqn:E; [reflexivity|].
    pose proof (lstrip_head _ E) as Hch.
    destruct (rev (Py.lstrip (rev (ch :: r)))) as [|y l] eqn:E2; [|discriminate H].
    apply (f_equal (@rev N)) in E2. rewrite rev_involutive in E2. simpl in E2.
    apply lstrip_blank in E2. rewrite forallb_forall in E2.
    rewrite (E2 ch) in Hch; [discriminate Hch|].
    apply in_or_app. right. simpl. now left.
  - intros H. apply lstrip_blank in H. now rewrite H.
Qed.

Lemma for_each_continue {A} (body : A -> unit -> M (unit * Ctl)) (ev : A -> list Event) :
  (forall x u, body x u = (ev x, Returned (tt, Continue))) ->
  forall xs u, for_each body xs u = (flat_map ev xs, Returned tt).
Proof.
  intros Hbody xs. induction xs as [|x xs IH]; intros u; simpl.
  - now destruct u.
  - rewrite Hbody. unfold bind. now rewrite IH.
Qed.

Lemma print_page_run item u :
  print_page item u = (page_report item, Returned (tt, Continue)).
Proof.
  destruct item as [n t]. unfold print_page, page_report. simpl fst; simpl snd.
  destruct (Py.truthy (Py.strip t)); [|reflexivity].
  rewrite (for_each_continue print_chunk chunk_lines) by reflexivity.
  unfold print, bind, emit, ret. simpl. now rewrite app_nil_r.
Qed.

Lemma print_pages_run (items : list (nat * Py.str)) :
  for_each print_page items tt = (flat_map page_report items, Returned tt).
Proof. apply for_each_continue. apply print_page_run. Qed.

Lemma print_pdf_info_run (r : PdfInfo) :
  print_pdf_info r =
  (EvStdout ((Py.lit "Number of pages: " ++ Py.of_nat (num_pages r)) ++ Py.nl)
   :: (if has_images r
       then [EvStdout ((Py.nl ++ Py.lit
               "Note: This PDF contains images and OCR was used to extract text")
               ++ Py.nl)]
       else [])
   ++ EvStdout ((Py.nl ++ Py.lit "Text content:") ++ Py.nl)
   :: flat_map page_report (Py.enumerate (text r) 1),
   Returned tt).
Proof.
  unfold print_pdf_info. rewrite print_pages_run.
  unfold print, bind, emit, ret. destruct (has_images r); reflexivity.
Qed.

(** C6. A page whose text is empty or all whitespace prints nothing, not
    even its header: the report of a document is the report of the pages
    before it followed by that of the pages after it, which keep their
    numbers.  With three pages of which only the second is blank, the
    pages part of the report is the block of page 1 followed by the block
    of page 3. *)
Theorem blank_page_prints_nothing (pre post : list Py.str) (p : Py.str) (n : nat) (b : bool) :
  forallb Py.isspace p = true ->
  (forall k u, print_page (k, p) u = ([], Returned (tt, Continue))) /\
  fst (print_pdf_info {| text := pre ++ p :: post; num_pages := n; has_images := b |})
  = fst (print_pdf_info {| text := pre; num_pages := n; has_images := b |})
    ++ fst (for_each print_page (Py.enumerate post (length pre + 2)) tt) /\
  (forall t1 t3,
     forallb Py.isspace t1 = false -> forallb Py.isspace t3 = false ->
     fst (for_each print_page (Py.enumerate [t1; p; t3] 1) tt)
     = (page_header 1 :: flat_map chunk_lines (chunks t1) ++ [page_separator])
       ++ (page_header 3 :: flat_map chunk_lines (chunks t3) ++ [page_separator])).
Proof.
  intros Hblank. apply strip_blank in Hblank.
  assert (Hp : forall k, page_report (k, p) = []).
  { intros k. unfold page_report. simpl. now rewrite Hblank. }
  split; [|split].
  - intros k u. now rewrite print_page_run, Hp.
  - rewrite !print_pdf_info_run, print_pages_run. simpl.
    rewrite enumerate_app, enumerate_cons, flat_map_app. simpl. rewrite Hp. simpl.
    replace (S (S (length pre))) with (length pre + 2) by lia.
    destruct b; simpl; rewrite <- ?app_assoc; simpl; rewrite <- ?app_assoc;
      reflexivity.
  - intros t1 t3 H1 H3. rewrite print_pages_run.
    rewrite !enumerate_cons. simpl. rewrite Hp, app_nil_r. unfold page_report. simpl.
    destruct (Py.truthy (Py.strip t1)) eqn:E1;
      [|apply strip_blank in E1; congruence].
    destruct (Py.truthy (Py.strip t3)) eqn:E3;
      [|apply strip_blank in E3; congruence].
    reflexivity.
Qed.

(** C7. A page with a character that is not whitespace prints its header,
    then each chunk of its text followed by the line of dashes, then one
    line of equals signs, which differs from the line of dashes.  The
    chunks are the consecutive windows of 1000 characters of the text,
    cut by position alone: together they are the text, all but the last
    have 1000 characters, none is empty, and a text of more than 1000
    characters has at least two. *)
Theorem page_text_is_printed_in_chunks (n : nat) (t : Py.str) :
  forallb Py.isspace t = false ->
  fst (print_page (n, t) tt)
  = page_header n :: flat_map chunk_lines (chunks t) ++ [page_separator] /\
  concat (chunks t) = t /\
  length (chunks t) = (length t + 999) / 1000 /\
  (forall k, k < length (chunks t) ->
     nth k (chunks t) [] = Py.slice t (k * 1000) (k * 1000 + 1000)) /\
  (forall k, S k < length (chunks t) -> length (nth k (chunks t) []) = 1000) /\
  (forall ch, In ch (chunks t) -> 1 <= length ch <= 1000) /\
  (1000 < length t -> 2 <= length (chunks t)) /\
  chunk_separator <> page_separator.
Proof.
  intros Hnb.
  assert (Hpos : 0 < CHUNK) by (unfold CHUNK; lia).
  split; [|split; [|split; [|split; [|split; [|split; [|split]]]]]].
  - rewrite print_page_run. unfold page_report. simpl.
    destruct (Py.truthy (Py.strip t)) eqn:E; [reflexivity|].
    apply strip_blank in E. congruence.
  - now apply chunks_concat.
  - apply chunks_length.
  - intros k Hk. now apply (@chunks_nth CHUNK).
  - intros k Hk. now apply (@chunks_full CHUNK).
  - intros ch Hin. now apply (@chunks_bounds CHUNK Hpos t).
  - intros Hlen. now apply (@chunks_several CHUNK).
  - discriminate.
Qed.

End Presenter.

(** Three pages of which the second is blank. *)
Lemma blank_page_prints_nothing_witness :
  fst (for_each print_page (Py.enumerate three_texts 1) tt)
  = [page_header 1; EvStdout (Py.lit "first" ++ Py.nl); chunk_separator; page_separator;
     page_header 3; EvStdout (Py.lit "third" ++ Py.nl); chunk_separator; page_separator].
Proof.
  exact (proj2 (proj2 (@blank_page_prints_nothing [] [] blank_text 0 false eq_refl))
           (Py.lit "first") (Py.lit "third") eq_refl eq_refl).
Defined.

(** A page of 2500 characters: chunks of 1000, 1000 and 500. *)
Lemma page_text_is_printed_in_chunks_witness :
  concat (chunks long_text) = long_text /\
  map (@length N) (chunks long_text) = [1000; 1000; 500].
Proof.
  destruct (@page_text_is_printed_in_chunks 1 long_text eq_refl) as (_ & H & _).
  split; [exact H|]. vm_compute. reflexivity.
Defined.

(** ** The command line *)

Section CommandLine.

Variable w : World.

Lemma stdout_of_app t1 t2 : stdout_of (t1 ++ t2) = stdout_of t1 ++ stdout_of t2.
Proof. apply flat_map_app. Qed.

Lemma stderr_writes_app t1 t2 :
  stderr_writes (t1 ++ t2) = stderr_writes t1 ++ stderr_writes t2.
Proof. apply flat_map_app. Qed.

(** The extractor writes nothing to standard error. *)
Lemma page_body_no_stderr item st : stderr_writes (fst (page_body w item st)) = [].
Proof.
  destruct item as [n p], st as [txt flag]. run_def. page_cases w p; reflexivity.
Qed.

Lemma extract_pdf_info_no_stderr path :
  stderr_writes (fst (extract_pdf_info w path)) = [].
Proof.
  destruct (pdfplumber_open w path) as [pdf|e] eqn:Hopen.
  - destruct (pages pdf) as [[|p rest]|e] eqn:Hpages.
    + unfold extract_pdf_info, with_open. rewrite Hopen.
      cbn [call bind ret emit]. rewrite Hpages. reflexivity.
    + rewrite (extract_pdf_info_first_page w path Hopen Hpages).
      pose proof (page_body_no_stderr (1, p) ([], false)) as Hb.
      destruct (page_body w (1, p) ([], false)) as [t [[[txt flag] k]|[e|k]]];
        simpl in *; change (EvOpen path :: t ++ [EvClose path])
                      with ([EvOpen path] ++ t ++ [EvClose path]);
        rewrite !stderr_writes_app, Hb; reflexivity.
    + unfold extract_pdf_info, with_open. rewrite Hopen.
      cbn [call bind ret emit]. rewrite Hpages. reflexivity.
  - unfold extract_pdf_info, with_open. rewrite Hopen. reflexivity.
Qed.

(** Nor does the report. *)
Lemma print_pdf_info_no_stderr (r : PdfInfo) :
  stderr_writes (fst (print_pdf_info r)) = [].
Proof.
  rewrite print_pdf_info_run. cbn [fst].
  assert (H : forall items, stderr_writes (flat_map page_report items) = []).
  { induction items as [|[k t] items IH]; [reflexivity|].
    simpl. rewrite stderr_writes_app, IH, app_nil_r.
    unfold page_report. simpl. destruct (Py.truthy (Py.strip t)); [|reflexivity].
    simpl. rewrite stderr_writes_app. simpl. rewrite app_nil_r.
    induction (chunks t) as [|ch chs IHc]; [reflexivity|exact IHc]. }
  destruct (has_images r); simpl; apply H.
Qed.

(** [main] with a path on the command line, by the way the extraction ends. *)
Lemma main_run path :
  main w (Some path) =
  match extract_pdf_info w path with
  | (t, Returned r) => (t ++ fst (print_pdf_info r), Returned tt)
  | (t, Raised (Exception e)) =>
      (t ++ [EvStderr ((Py.lit "Error: " ++ exc_str e) ++ Py.nl)], Raised (SystemExit 1))
  | (t, Raised (SystemExit c)) => (t, Raised (SystemExit c))
  end.
Proof.
  unfold main, try_except, bind, ret, print_stderr, emit, raise.
  destruct (extract_pdf_info w path) as [t [r|[e|c]]]; simpl; try reflexivity.
  rewrite print_pdf_info_run. reflexivity.
Qed.

(** C8. With a path on the command line: when the extraction fails,
    [main] adds one line to standard error, which begins with ['Error:'],
    and exits with status 1; standard output holds what the extractor
    had written before it failed and nothing of the report, and it is
    empty when the file cannot be opened.  When the extraction succeeds
    the report follows and the status is 0. *)
Theorem main_exit_status path :
  (forall e, snd (extract_pdf_info w path) = Raised e ->
     exists cause,
       e = wrapped cause /\
       main w (Some path)
       = (fst (extract_pdf_info w path) ++ [EvStderr (error_line cause)],
          Raised (SystemExit 1)) /\
       exit_status (main w (Some path)) = 1%Z /\
       stderr_writes (fst (main w (Some path))) = [error_line cause] /\
       stdout_of (fst (main w (Some path))) = stdout_of (fst (extract_pdf_info w path))) /\
  (forall cause, pdfplumber_open w path = Err cause ->
     exit_status (main w (Some path)) = 1%Z /\
     stderr_writes (fst (main w (Some path))) = [error_line cause] /\
     stdout_of (fst (main w (Some path))) = []) /\
  (forall r, snd (extract_pdf_info w path) = Returned r ->
     exit_status (main w (Some path)) = 0%Z /\
     fst (main w (Some path)) = fst (extract_pdf_info w path) ++ fst (print_pdf_info r) /\
     stderr_writes (fst (main w (Some path))) = []).
Proof.
  split; [|split].
  - intros e He. destruct (extract_pdf_info_raised _ _ He) as (cause & -> & _).
    exists cause. split; [reflexivity|].
    pose proof (extract_pdf_info_no_stderr path) as Hs.
    rewrite main_run. unfold exit_status.
    destruct (extract_pdf_info w path) as [t o]. simpl in He, Hs. subst o. simpl.
    rewrite stderr_writes_app, stdout_of_app, Hs. simpl.
    rewrite app_nil_r. repeat split.
  - intros cause Hopen. rewrite main_run.
    unfold extract_pdf_info, with_open. rewrite Hopen. repeat split.
  - intros r Hr. rewrite main_run. unfold exit_status.
    pose proof (extract_pdf_info_no_stderr path) as Hs.
    destruct (extract_pdf_info w path) as [t o]. simpl in Hr, Hs. subst o.
    repeat split. cbn [fst].
    now rewrite stderr_writes_app, Hs, print_pdf_info_no_stderr.
Qed.

End CommandLine.

(** The command line names a file that does not exist. *)
Lemma main_exit_status_witness :
  exit_status (main world_missing (Some (Py.lit "missing.pdf"))) = 1%Z /\
  stderr_writes (fst (main world_missing (Some (Py.lit "missing.pdf"))))
  = [error_line FileNotFoundError] /\
  stdout_of (fst (main world_missing (Some (Py.lit "missing.pdf")))) = [].
Proof.
  exact (proj1 (proj2 (main_exit_status world_missing (Py.lit "missing.pdf")))
           FileNotFoundError eq_refl).
Defined.

(** * Further properties of the three functions *)

(** ** Runs of [extract_pdf_info], case by case *)

Section ExtractorRuns.

Variable w : World.

Lemma ocr_calls_framed path t :
  ocr_calls (EvOpen path :: t ++ [EvClose path]) = ocr_calls t.
Proof. unfold ocr_calls. simpl. rewrite flat_map_app. simpl. apply app_nil_r. Qed.

Lemma rasterised_framed path t :
  rasterised (EvOpen path :: t ++ [EvClose path]) = rasterised t.
Proof. unfold rasterised. simpl. rewrite flat_map_app. simpl. apply app_nil_r. Qed.

Lemma lib_errors_framed path t :
  lib_errors (EvOpen path :: t ++ [EvClose path]) = lib_errors t.
Proof. unfold lib_errors. simpl. rewrite flat_map_app. simpl. apply app_nil_r. Qed.

Lemma stdout_writes_framed path t :
  stdout_writes (EvOpen path :: t ++ [EvClose path]) = stdout_writes t.
Proof. unfold stdout_writes. simpl. rewrite flat_map_app. simpl. apply app_nil_r. Qed.

Lemma in_framed path t ev :
  is_open_close ev = false ->
  (In ev (EvOpen path :: t ++ [EvClose path]) <-> In ev t).
Proof.
  intros Hev. simpl. rewrite in_app_iff. simpl. split.
  - intros [H|[H|[H|H]]]; try assumption; try contradiction;
      subst ev; discriminate Hev.
  - auto.
Qed.

(** The four ways a run of [extract_pdf_info] can go. *)
Lemma extract_pdf_info_cases path :
  (exists c, pdfplumber_open w path = Err c /\
     extract_pdf_info w path = ([EvLibRaise c], Raised (wrapped c))) \/
  (exists pdf c, pdfplumber_open w path = Ok pdf /\ pages pdf = Err c /\
     extract_pdf_info w path
     = ([EvOpen path; EvLibRaise c; EvClose path], Raised (wrapped c))) \/
  (exists pdf, pdfplumber_open w path = Ok pdf /\ pages pdf = Ok [] /\
     extract_pdf_info w path
     = ([EvOpen path; EvClose path],
        Returned {| text := []; num_pages := 0; has_images := false |})) \/
  (exists pdf p rest tb, pdfplumber_open w path = Ok pdf /\ pages pdf = Ok (p :: rest) /\
     ((exists entry flag,
         page_body w (1, p) ([], false) = (tb, Returned (([entry], flag), Break)) /\
         extract_pdf_info w path
         = (EvOpen path :: tb ++ [EvClose path],
            Returned {| text := [entry]; num_pages := S (length rest);
                        has_images := flag |})) \/
      (exists c,
         page_body w (1, p) ([], false) = (tb, Raised (Exception c)) /\
         extract_pdf_info w path
         = (EvOpen path :: tb ++ [EvClose path], Raised (wrapped c))))).
Proof.
  destruct (pdfplumber_open w path) as [pdf|e] eqn:Hopen.
  - destruct (pages pdf) as [[|p rest]|e] eqn:Hpages.
    + right; right; left. exists pdf. repeat split; try assumption.
      unfold extract_pdf_info, with_open. rewrite Hopen.
      cbn [call bind ret emit]. rewrite Hpages. reflexivity.
    + right; right; right.
      rewrite (extract_pdf_info_first_page w path Hopen Hpages).
      destruct (page_body w (1, p) ([], false)) as [tb [[[txt flag] k]|e]] eqn:E.
      * pose proof (page_body_breaks _ _ _ E); subst k.
        destruct (page_body_appends _ _ _ _ _ E) as [entry ->].
        exists pdf, p, rest, tb. repeat split; try assumption. left. exists entry, flag. split; [exact E|reflexivity].
      * assert (He : snd (page_body w (1, p) ([], false)) = Raised e)
          by now rewrite E.
        destruct (page_body_raised _ _ _ He) as (c & -> & _).
        exists pdf, p, rest, tb. repeat split; try assumption. right. exists c. split; [exact E|reflexivity].
    + right; left. exists pdf, e. repeat split; try assumption.
      unfold extract_pdf_info, with_open. rewrite Hopen.
      cbn [call bind ret emit]. rewrite Hpages. reflexivity.
  - left. exists e. split; [reflexivity|].
    unfold extract_pdf_info, with_open. rewrite Hopen. reflexivity.
Qed.

End ExtractorRuns.

(** ** The loop body, observed *)

Section PageBodyObserved.

Variable w : World.

(** Starting from [has_images = False], the body sets the flag exactly
    when it rasterises the page, and exactly when it calls the OCR engine. *)
Lemma page_body_flag n p txt tb txt' flag' c :
  page_body w (n, p) (txt, false) = (tb, Returned ((txt', flag'), c)) ->
  (flag' = true <-> In (EvToImage n) tb) /\
  (flag' = true <-> exists img, ocr_calls tb = [(img, Py.lit "jpn")]).
Proof.
  run_def.
  page_cases w p; intros H; inversion H; subst; clear H; split; split; intros Hx;
    try discriminate Hx; try reflexivity;
    try (in_trace Hx; fail);
    try match type of Hx with
        | ex _ => destruct Hx as [? Hx]; discriminate Hx
        end;
    simpl; eauto.
Qed.

Lemma page_body_ocr_once n p st :
  length (ocr_calls (fst (page_body w (n, p) st))) <= 1 /\
  length (rasterised (fst (page_body w (n, p) st))) <= 1 /\
  (forall i l, In (i, l) (ocr_calls (fst (page_body w (n, p) st))) -> l = Py.lit "jpn") /\
  (forall k, In k (rasterised (fst (page_body w (n, p) st))) -> k = n).
Proof.
  destruct st as [txt flag]. run_def.
  page_cases w p; repeat split; simpl; try lia;
    try (intros ? ? H; in_trace H; inversion H; reflexivity);
    try (intros ? H; in_trace H; symmetry; exact H).
Qed.

Lemma page_body_no_open_close n p st ev :
  In ev (fst (page_body w (n, p) st)) -> is_open_close ev = false.
Proof.
  destruct st as [txt flag]. run_def.
  page_cases w p; intros H; simpl in H;
    repeat match type of H with
           | _ \/ _ => destruct H as [<-|H]; [reflexivity|]
           end;
    contradiction.
Qed.

(** A library call that raises is the last thing the body does. *)
Lemma page_body_fail_stop n p st c :
  In (EvLibRaise c) (fst (page_body w (n, p) st)) ->
  lib_errors (fst (page_body w (n, p) st)) = [c] /\
  last (fst (page_body w (n, p) st)) (EvLibRaise c) = EvLibRaise c.
Proof.
  destruct st as [txt flag]. run_def.
  page_cases w p; intros H; in_trace H; inversion H; subst; split; reflexivity.
Qed.

Lemma page_body_returned_no_lib_error n p st r :
  snd (page_body w (n, p) st) = Returned r ->
  lib_errors (fst (page_body w (n, p) st)) = [].
Proof.
  destruct st as [txt flag]. run_def.
  page_cases w p; intros H; try discriminate H; reflexivity.
Qed.

(** The diagnostics of a body that reaches its end describe the entry
    that it recorded. *)
Lemma page_body_debug n p flag tb entry flag' c :
  page_body w (n, p) ([], flag) = (tb, Returned (([entry], flag'), c)) ->
  exists cs imgs,
    chars p = Ok cs /\ images p = Ok imgs /\
    stdout_writes tb
    = map (fun l => l ++ Py.nl) (debug_lines n entry (length cs) (length imgs)).
Proof.
  run_def.
  page_cases w p; intros H; try discriminate H;
    try match goal with
        | Eocr : image_to_string _ _ _ = Ok ?a |- _ => destruct a; simpl in H
        end;
    inversion H; subst; clear H;
    do 2 eexists; (split; [reflexivity|split; [reflexivity|reflexivity]]).
Qed.


End PageBodyObserved.

(** The body depends on the world through the OCR engine alone. *)
Lemma page_body_ext w w' item st :
  (forall i l, image_to_string w i l = image_to_string w' i l) ->
  page_body w item st = page_body w' item st.
Proof.
  intros H. destruct item as [n p], st as [txt flag]. run_def.
  page_cases w p; try rewrite <- H, Eocr; reflexivity.
Qed.

(** ** More on [extract_pdf_info] *)

Section ExtractorFurther.

Variable w : World.

Lemma in_lib_errors t c : In (EvLibRaise c) t -> In c (lib_errors t).
Proof.
  unfold lib_errors. intros H. apply in_flat_map.
  exists (EvLibRaise c). split; [assumption|now left].
Qed.

(** X1. A document without pages gives an empty [text] list, zero pages
    and [has_images = False]; nothing is printed and the document is
    closed again. *)
Theorem extract_empty_document path pdf :
  pdfplumber_open w path = Ok pdf ->
  pages pdf = Ok [] ->
  extract_pdf_info w path
  = ([EvOpen path; EvClose path],
     Returned {| text := []; num_pages := 0; has_images := false |}).
Proof.
  intros Hopen Hpages. unfold extract_pdf_info, with_open. rewrite Hopen.
  cbn [call bind ret emit]. rewrite Hpages. reflexivity.
Qed.

(** X2. Whatever the document, a returned [text] list has
    [min(1, num_pages)] entries, and a result for a document without pages
    has [has_images = False]. *)
Theorem result_text_length path r :
  snd (extract_pdf_info w path) = Returned r ->
  length (text r) = Nat.min 1 (num_pages r) /\
  (num_pages r = 0 -> has_images r = false).
Proof.
  destruct (extract_pdf_info_cases w path)
    as [(c & _ & E)|[(pdf & c & _ & _ & E)|[(pdf & _ & _ & E)
       |(pdf & p & rest & tb & _ & _ & [(entry & flag & _ & E)|(c & _ & E)])]]];
    rewrite E; simpl; intros H; inversion H; subst r; simpl; split;
    try reflexivity; try discriminate.
Qed.

(** X3. In a returned result [has_images] is true exactly when the first
    page was rasterised, and exactly when the OCR engine was called, once
    and for Japanese: the flag tells that OCR was used, not that the
    document contains images. *)
Theorem has_images_iff_ocr_used path r :
  snd (extract_pdf_info w path) = Returned r ->
  (has_images r = true <-> In (EvToImage 1) (fst (extract_pdf_info w path))) /\
  (has_images r = true <->
   exists img, ocr_calls (fst (extract_pdf_info w path)) = [(img, Py.lit "jpn")]).
Proof.
  destruct (extract_pdf_info_cases w path)
    as [(c & _ & E)|[(pdf & c & _ & _ & E)|[(pdf & _ & _ & E)
       |(pdf & p & rest & tb & _ & _ & [(entry & flag & Eb & E)|(c & _ & E)])]]];
    rewrite E; simpl snd; intros H; inversion H; subst r; clear H; cbn [fst has_images].
  - split; split; intros Hx; try discriminate Hx.
    + in_trace Hx.
    + destruct Hx as [img Hx]. discriminate Hx.
  - destruct (page_body_flag _ _ _ _ Eb) as [H1 H2].
    rewrite ocr_calls_framed. rewrite (in_framed path tb (EvToImage 1) eq_refl).
    split; assumption.
Qed.

(** X4. A first page with a non-empty text layer is never OCR'd, images
    or not: its text is returned as it is and [has_images] is false even
    though the page holds images. *)
Theorem text_page_with_images_not_flagged path pdf p rest t i l r :
  pdfplumber_open w path = Ok pdf ->
  pages pdf = Ok (p :: rest) ->
  extract_text p = Ok (Some t) -> t <> [] ->
  images p = Ok (i :: l) ->
  snd (extract_pdf_info w path) = Returned r ->
  r = {| text := [t]; num_pages := S (length rest); has_images := false |} /\
  ocr_calls (fst (extract_pdf_info w path)) = [] /\
  rasterised (fst (extract_pdf_info w path)) = [].
Proof.
  intros Hopen Hpages Ht Hne Hi.
  rewrite (extract_pdf_info_first_page w path Hopen Hpages).
  run_def. rewrite Ht, Hi. destruct t as [|ch t]; [congruence|]. simpl.
  destruct (chars p) as [cs|e]; simpl; intros H; inversion H; subst r.
  repeat split.
Qed.

(** X5. In any run, however it ends, the page is rasterised at most once
    and the OCR engine is called at most once; only page 1 is ever
    rasterised and the language is always ['jpn']. *)
Theorem ocr_at_most_once path :
  length (ocr_calls (fst (extract_pdf_info w path))) <= 1 /\
  length (rasterised (fst (extract_pdf_info w path))) <= 1 /\
  (forall img lang, In (img, lang) (ocr_calls (fst (extract_pdf_info w path))) ->
     lang = Py.lit "jpn") /\
  (forall k, In k (rasterised (fst (extract_pdf_info w path))) -> k = 1).
Proof.
  destruct (extract_pdf_info_cases w path)
    as [(c & _ & E)|[(pdf & c & _ & _ & E)|[(pdf & _ & _ & E)
       |(pdf & p & rest & tb & _ & _ & [(entry & flag & Eb & E)|(c & Eb & E)])]]];
    rewrite E; cbn [fst]; rewrite ?ocr_calls_framed, ?rasterised_framed;
    try (simpl; repeat split; try lia; intros; contradiction).
  all: pose proof (page_body_ocr_once w 1 p ([], false)) as Hb;
    rewrite Eb in Hb; exact Hb.
Qed.

(** X6. The document is released on every path: either it could not be
    opened and nothing else happened, or the run starts by opening it,
    ends by closing it, and neither opens nor closes anything in between. *)
Theorem document_closed_on_every_path path :
  (exists c, pdfplumber_open w path = Err c /\
             fst (extract_pdf_info w path) = [EvLibRaise c]) \/
  (exists pdf mid, pdfplumber_open w path = Ok pdf /\
     fst (extract_pdf_info w path) = EvOpen path :: mid ++ [EvClose path] /\
     forall ev, In ev mid -> is_open_close ev = false).
Proof.
  destruct (extract_pdf_info_cases w path)
    as [(c & Ho & E)|[(pdf & c & Ho & _ & E)|[(pdf & Ho & _ & E)
       |(pdf & p & rest & tb & Ho & _ & [(entry & flag & Eb & E)|(c & Eb & E)])]]];
    rewrite E; cbn [fst].
  - left. exists c. split; [assumption|reflexivity].
  - right. exists pdf, [EvLibRaise c]. repeat split; try assumption.
    intros ev [<-|[]]. reflexivity.
  - right. exists pdf, []. repeat split; try assumption. intros ev [].
  - right. exists pdf, tb. repeat split; try assumption.
    intros ev Hin. apply (page_body_no_open_close w 1 p ([], false) ev).
    now rewrite Eb.
  - right. exists pdf, tb. repeat split; try assumption.
    intros ev Hin. apply (page_body_no_open_close w 1 p ([], false) ev).
    now rewrite Eb.
Qed.

(** X7. A library call that raises is the only one that does and the end
    of the run: after it nothing happens but, where the document had been
    opened, its release. *)
Theorem nothing_after_library_error path c :
  In (EvLibRaise c) (fst (extract_pdf_info w path)) ->
  lib_errors (fst (extract_pdf_info w path)) = [c] /\
  exists pre,
    fst (extract_pdf_info w path) = pre ++ [EvLibRaise c] \/
    fst (extract_pdf_info w path) = pre ++ [EvLibRaise c; EvClose path].
Proof.
  destruct (extract_pdf_info_cases w path)
    as [(c0 & _ & E)|[(pdf & c0 & _ & _ & E)|[(pdf & _ & _ & E)
       |(pdf & p & rest & tb & _ & _ & [(entry & flag & Eb & E)|(c0 & Eb & E)])]]];
    rewrite E; cbn [fst]; intros Hin.
  - in_trace Hin. inversion Hin; subst. split; [reflexivity|].
    exists []. now left.
  - in_trace Hin. inversion Hin; subst. split; [reflexivity|].
    exists [EvOpen path]. now right.
  - in_trace Hin.
  - apply (in_framed path tb (EvLibRaise c) eq_refl) in Hin.
    apply in_lib_errors in Hin.
    pose proof (@page_body_returned_no_lib_error w 1 p ([], false)) as Hn.
    rewrite Eb in Hn. simpl in Hn. rewrite (Hn _ eq_refl) in Hin. contradiction.
  - apply (in_framed path tb (EvLibRaise c) eq_refl) in Hin.
    pose proof (@page_body_fail_stop w 1 p ([], false) c) as Hf.
    rewrite Eb in Hf. simpl in Hf. destruct (Hf Hin) as [Hl Hlast].
    rewrite lib_errors_framed. split; [assumption|].
    exists (EvOpen path :: removelast tb). right.
    assert (Hne : tb <> []) by (intros ->; contradiction).
    rewrite (app_removelast_last (EvLibRaise c) Hne) at 1.
    rewrite Hlast. simpl. now rewrite <- app_assoc.
Qed.


(** X10. When the extraction of a document with pages returns, standard
    output holds four lines of diagnostics about page 1: the length of the
    entry that is returned, its first 100 characters (or ['No text'] when
    it is empty), and the numbers of characters and images of the page. *)
Theorem diagnostics_describe_the_entry path pdf p rest r :
  pdfplumber_open w path = Ok pdf ->
  pages pdf = Ok (p :: rest) ->
  snd (extract_pdf_info w path) = Returned r ->
  exists entry cs imgs,
    text r = [entry] /\ chars p = Ok cs /\ images p = Ok imgs /\
    stdout_writes (fst (extract_pdf_info w path))
    = map (fun l => l ++ Py.nl) (debug_lines 1 entry (length cs) (length imgs)).
Proof.
  intros Hopen Hpages. rewrite (extract_pdf_info_first_page w path Hopen Hpages).
  destruct (page_body w (1, p) ([], false)) as [tb [[[txt flag] k]|[e|k]]] eqn:E;
    simpl snd; intros H; inversion H; subst r; clear H; cbn [fst text].
  destruct (page_body_appends _ _ _ _ _ E) as [entry ->]. simpl in E.
  destruct (page_body_debug _ _ _ _ E) as (cs & imgs & Hc & Hi & Hs).
  exists entry, cs, imgs. rewrite stdout_writes_framed. repeat split; assumption.
Qed.

End ExtractorFurther.

(** X8. The pages after the first are never read: two documents with the
    same first page, processed with the same OCR engine, give the same
    events, the same exception if any, and results that differ in
    [num_pages] at most. *)
Theorem later_pages_are_never_read w w' path pdf pdf' p rest rest' :
  pdfplumber_open w path = Ok pdf -> pages pdf = Ok (p :: rest) ->
  pdfplumber_open w' path = Ok pdf' -> pages pdf' = Ok (p :: rest') ->
  (forall i l, image_to_string w i l = image_to_string w' i l) ->
  fst (extract_pdf_info w path) = fst (extract_pdf_info w' path) /\
  (forall r, snd (extract_pdf_info w path) = Returned r ->
     snd (extract_pdf_info w' path)
     = Returned {| text := text r; num_pages := S (length rest');
                   has_images := has_images r |}) /\
  (forall e, snd (extract_pdf_info w path) = Raised e ->
     snd (extract_pdf_info w' path) = Raised e).
Proof.
  intros Hopen Hpages Hopen' Hpages' Hocr.
  rewrite (extract_pdf_info_first_page w path Hopen Hpages).
  rewrite (extract_pdf_info_first_page w' path Hopen' Hpages').
  rewrite <- (page_body_ext w w' (1, p) ([], false) Hocr).
  destruct (page_body w (1, p) ([], false)) as [tb [[[txt flag] k]|[e|k]]]; simpl.
  all: repeat split; intros ? H; inversion H; reflexivity.
Qed.

(** ** More on the chunks *)

Section ChunksFurther.

(** X11. A text of at most 1000 characters that is not empty is printed
    as a single chunk, the text itself. *)
Theorem short_text_is_one_chunk (t : Py.str) :
  0 < length t <= 1000 ->
  chunks t = [t].
Proof.
  intros Hlen.
  assert (Hpos : 0 < CHUNK) by (unfold CHUNK; lia).
  pose proof (chunks_concat Hpos t) as Hc.
  pose proof (chunks_length CHUNK t) as Hn.
  pose proof (@ceil_bounds CHUNK Hpos (length t)) as Hb.
  fold (chunks t) in Hc, Hn.
  assert (Hone : length (chunks t) = 1) by (rewrite Hn; unfold CHUNK in *; nia).
  destruct (chunks t) as [|x [|y l]]; try discriminate Hone.
  simpl in Hc. rewrite app_nil_r in Hc. now subst x.
Qed.

(** X12. A text whose length is a multiple of 1000 is cut into that many
    chunks of 1000 characters each: no shorter and no empty chunk follows. *)
Theorem full_windows_only (t : Py.str) (k : nat) :
  length t = k * 1000 ->
  length (chunks t) = k /\
  (forall ch, In ch (chunks t) -> length ch = 1000).
Proof.
  intros Hlen.
  assert (Hpos : 0 < CHUNK) by (unfold CHUNK; lia).
  pose proof (chunks_length CHUNK t) as Hn.
  pose proof (@ceil_bounds CHUNK Hpos (length t)) as Hb.
  unfold chunks.
  assert (Hk : length (chunks_of CHUNK t) = k)
    by (rewrite Hn; unfold CHUNK in *; nia).
  split; [exact Hk|].
  intros ch Hin. destruct (In_nth _ _ [] Hin) as (i & Hi & <-).
  assert (Hi' : i < k) by (rewrite <- Hk; exact Hi).
  rewrite chunks_nth by exact Hi.
  rewrite slice_length by exact Hpos.
  unfold CHUNK. nia.
Qed.

(** X13. The chunks are cut by position alone: replacing every character
    of the text by another replaces the characters of the chunks and
    moves no boundary. *)
Theorem chunks_ignore_content (f : N -> N) (t : Py.str) :
  chunks (map f t) = map (map f) (chunks t).
Proof.
  unfold chunks, chunks_of. rewrite length_map, map_map.
  apply map_ext. intros i. unfold Py.slice.
  now rewrite skipn_map, firstn_map.
Qed.

End ChunksFurther.

(** ** More on [print_pdf_info] *)

Section PresenterFurther.

Lemma strip_has_content (item : nat * Py.str) :
  Py.truthy (Py.strip (snd item)) = has_content item.
Proof.
  unfold has_content.
  destruct (Py.truthy (Py.strip (snd item))) eqn:E;
    destruct (forallb Py.isspace (snd item)) eqn:F; try reflexivity.
  - apply strip_blank in F. congruence.
  - apply strip_blank in E. congruence.
Qed.

Lemma page_reports_filter (items : list (nat * Py.str)) :
  flat_map page_report items = flat_map page_block (filter has_content items).
Proof.
  induction items as [|item items IH]; [reflexivity|].
  simpl. rewrite IH. unfold page_report at 1. rewrite strip_has_content.
  destruct (has_content item); reflexivity.
Qed.

Lemma print_pdf_info_preamble (r : PdfInfo) :
  fst (print_pdf_info r)
  = report_preamble r ++ flat_map page_report (Py.enumerate (text r) 1).
Proof.
  rewrite print_pdf_info_run. unfold report_preamble. cbn [fst].
  simpl. now rewrite <- app_assoc.
Qed.

(** X14. [print_pdf_info] always returns, and its output is the line with
    the page count, the OCR note when [has_images] is set, the line
    ['Text content:'], and then one block for each entry of [text] that
    has a character other than whitespace, in order and under its
    position in the list, counted from 1. *)
Theorem report_structure (r : PdfInfo) :
  print_pdf_info r
  = (report_preamble r
     ++ flat_map page_block (filter has_content (Py.enumerate (text r) 1)),
     Returned tt).
Proof.
  pose proof (print_pdf_info_preamble r) as H.
  rewrite page_reports_filter in H. rewrite <- H.
  rewrite print_pdf_info_run. reflexivity.
Qed.

End PresenterFurther.

(** ** More on [main] *)

Section CommandLineFurther.

Variable w : World.

(** [main] without an argument, by what [input] reads. *)
Lemma main_none_run :
  main w None =
  match stdin_line w with
  | Ok line => (prompt_event :: fst (main w (Some line)), snd (main w (Some line)))
  | Err e =>
      ([prompt_event; EvLibRaise e; EvStderr ((Py.lit "Error: " ++ exc_str e) ++ Py.nl)],
       Raised (SystemExit 1))
  end.
Proof.
  unfold main, input, prompt_event, try_except, call, bind, ret, print_stderr, emit, raise.
  destruct (stdin_line w) as [line|e]; [|reflexivity].
  destruct (extract_pdf_info w line) as [t [r|[e|c]]]; simpl; try reflexivity.
  rewrite print_pdf_info_run. reflexivity.
Qed.

(** [main] after an extraction that returned. *)
Lemma main_after_return path r :
  snd (extract_pdf_info w path) = Returned r ->
  main w (Some path)
  = (fst (extract_pdf_info w path) ++ report_preamble r
       ++ flat_map page_report (Py.enumerate (text r) 1),
     Returned tt).
Proof.
  intros Hr. rewrite main_run, <- print_pdf_info_preamble.
  destruct (extract_pdf_info w path) as [t o]. simpl in Hr. subst o. reflexivity.
Qed.




(** X17. When [input] fails, [main] has written the prompt, reports the
    failure on standard error as ['Error: '] and [str] of the exception,
    without the extractor's prefix, and exits with status 1; no document
    is opened. *)
Theorem main_prompt_fails (e : ExcInfo) :
  stdin_line w = Err e ->
  main w None
  = ([EvStdout (Py.lit "Enter PDF file path: "); EvLibRaise e;
      EvStderr ((Py.lit "Error: " ++ exc_str e) ++ Py.nl)],
     Raised (SystemExit 1)).
Proof. intros H. rewrite main_none_run, H. reflexivity. Qed.

(** X18. For a document with pages whose extraction returns, [main]
    prints, after the diagnostics, the count of all pages and at most
    one page block, that of page 1: the block is there exactly when the
    entry has a character other than whitespace. *)
Theorem report_shows_first_page_only path pdf p rest r :
  pdfplumber_open w path = Ok pdf ->
  pages pdf = Ok (p :: rest) ->
  snd (extract_pdf_info w path) = Returned r ->
  exists entry,
    text r = [entry] /\ num_pages r = S (length rest) /\
    main w (Some path)
    = (fst (extract_pdf_info w path) ++ report_preamble r
         ++ (if has_content (1, entry) then page_block (1, entry) else []),
       Returned tt).
Proof.
  intros Hopen Hpages Hr. rewrite (main_after_return path Hr).
  rewrite (extract_pdf_info_first_page w path Hopen Hpages) in Hr |- *.
  destruct (page_body w (1, p) ([], false)) as [tb [[[txt flag] k]|[e|k]]] eqn:E;
    simpl in Hr; inversion Hr; subst r; clear Hr. cbn [text num_pages fst].
  destruct (page_body_appends _ _ _ _ _ E) as [entry ->].
  exists entry. repeat split. simpl. rewrite app_nil_r.
  unfold page_report. rewrite strip_has_content. reflexivity.
Qed.

(** X19. A first page whose text layer is whitespace only is not OCR'd,
    and its entry prints nothing: the report ends after the line
    ['Text content:'] although the [text] list has an entry. *)
Theorem whitespace_text_layer_gives_empty_report path pdf p rest t cs imgs :
  pdfplumber_open w path = Ok pdf ->
  pages pdf = Ok (p :: rest) ->
  extract_text p = Ok (Some t) -> t <> [] -> forallb Py.isspace t = true ->
  chars p = Ok cs -> images p = Ok imgs ->
  snd (extract_pdf_info w path)
  = Returned {| text := [t]; num_pages := S (length rest); has_images := false |} /\
  ocr_calls (fst (extract_pdf_info w path)) = [] /\
  main w (Some path)
  = (fst (extract_pdf_info w path)
       ++ report_preamble {| text := [t]; num_pages := S (length rest);
                             has_images := false |},
     Returned tt).
Proof.
  intros Hopen Hpages Ht Hne Hblank Hcs Himgs.
  assert (Hr : snd (extract_pdf_info w path)
    = Returned {| text := [t]; num_pages := S (length rest); has_images := false |}).
  { rewrite (extract_pdf_info_first_page w path Hopen Hpages).
    run_def. rewrite Ht, Hcs, Himgs. destruct t; [congruence|reflexivity]. }
  split; [exact Hr|split].
  - rewrite (extract_pdf_info_first_page w path Hopen Hpages).
    run_def. rewrite Ht, Hcs, Himgs. destruct t; [congruence|reflexivity].
  - rewrite (main_after_return path Hr). cbn [text]. simpl flat_map.
    unfold page_report. rewrite strip_has_content. unfold has_content. cbn [snd].
    rewrite Hblank. simpl. rewrite ?app_nil_r. reflexivity.
Qed.

(** X20. When OCR of a scanned first page gives nothing but whitespace
    (or nothing at all), the report carries the note that OCR was used
    and no page block. *)
Theorem blank_ocr_gives_note_without_text path pdf p rest i l img t cs :
  pdfplumber_open w path = Ok pdf ->
  pages pdf = Ok (p :: rest) ->
  native_text_missing p ->
  images p = Ok (i :: l) ->
  to_image_original p = Ok img ->
  image_to_string w img (Py.lit "jpn") = Ok t -> forallb Py.isspace t = true ->
  chars p = Ok cs ->
  main w (Some path)
  = (fst (extract_pdf_info w path)
       ++ [EvStdout ((Py.lit "Number of pages: " ++ Py.of_nat (S (length rest))) ++ Py.nl);
           EvStdout ((Py.nl ++ Py.lit
              "Note: This PDF contains images and OCR was used to extract text")
              ++ Py.nl);
           EvStdout ((Py.nl ++ Py.lit "Text content:") ++ Py.nl)],
     Returned tt).
Proof.
  intros Hopen Hpages Hm Hi Himg Hocr Hblank Hcs.
  assert (Hr : snd (extract_pdf_info w path)
    = Returned {| text := [t]; num_pages := S (length rest); has_images := true |}).
  { rewrite (extract_pdf_info_first_page w path Hopen Hpages).
    run_def. rewrite Hi, Himg, Hcs.
    destruct Hm as [-> | ->]; simpl; rewrite Hocr; simpl; destruct t; reflexivity. }
  rewrite (main_after_return path Hr). cbn [text]. simpl flat_map.
  unfold page_report. rewrite strip_has_content. unfold has_content. cbn [snd].
  rewrite Hblank. simpl. reflexivity.
Qed.

End CommandLineFurther.

(** ** The further properties at sample inputs *)

(** A document without pages. *)
Lemma extract_empty_document_witness :
  extract_pdf_info (world_of [] (Ok [])) (Py.lit "empty.pdf")
  = ([EvOpen (Py.lit "empty.pdf"); EvClose (Py.lit "empty.pdf")],
     Returned {| text := []; num_pages := 0; has_images := false |}).
Proof.
  exact (@extract_empty_document (world_of [] (Ok [])) (Py.lit "empty.pdf")
           {| pages := Ok [] |} eq_refl eq_refl).
Defined.

(** Three pages, one entry. *)
Lemma result_text_length_witness :
  length (text scan_result) = Nat.min 1 (num_pages scan_result).
Proof.
  exact (proj1 (@result_text_length (world_of scan_then_text (Ok (Py.lit "scan")))
                  (Py.lit "doc.pdf") scan_result eq_refl)).
Defined.

(** The scanned first page was rasterised, and the flag is set. *)
Lemma has_images_iff_ocr_used_witness :
  In (EvToImage 1)
     (fst (extract_pdf_info (world_of scan_then_text (Ok (Py.lit "scan")))
             (Py.lit "doc.pdf"))).
Proof.
  apply (proj1 (@has_images_iff_ocr_used (world_of scan_then_text (Ok (Py.lit "scan")))
                  (Py.lit "doc.pdf") scan_result eq_refl)).
  reflexivity.
Defined.

(** A page with text and an image on it. *)
Lemma text_page_with_images_not_flagged_witness :
  ocr_calls (fst (extract_pdf_info (world_of [illustrated_page (Py.lit "A")] (Ok []))
                    (Py.lit "a.pdf"))) = [].
Proof.
  refine (proj1 (proj2 (@text_page_with_images_not_flagged
            (world_of [illustrated_page (Py.lit "A")] (Ok [])) (Py.lit "a.pdf")
            {| pages := Ok [illustrated_page (Py.lit "A")] |}
            (illustrated_page (Py.lit "A")) [] (Py.lit "A") (pdf_object 0) []
            {| text := [Py.lit "A"]; num_pages := 1; has_images := false |}
            eq_refl eq_refl eq_refl _ eq_refl eq_refl))).
  discriminate.
Defined.

(** The file is missing: one library exception, and it ends the run. *)
Lemma nothing_after_library_error_witness :
  lib_errors (fst (extract_pdf_info world_missing (Py.lit "missing.pdf")))
  = [FileNotFoundError].
Proof.
  refine (proj1 (@nothing_after_library_error world_missing (Py.lit "missing.pdf")
                   FileNotFoundError _)).
  simpl. auto.
Defined.

(** A readable second page against two broken ones. *)
Lemma later_pages_are_never_read_witness :
  fst (extract_pdf_info (world_of [scanned_page; text_page (Py.lit "B")]
                           (Ok (Py.lit "scan"))) (Py.lit "doc.pdf"))
  = fst (extract_pdf_info (world_of [scanned_page; broken_page; broken_page]
                             (Ok (Py.lit "scan"))) (Py.lit "doc.pdf")).
Proof.
  exact (proj1 (@later_pages_are_never_read
                  (world_of [scanned_page; text_page (Py.lit "B")] (Ok (Py.lit "scan")))
                  (world_of [scanned_page; broken_page; broken_page] (Ok (Py.lit "scan")))
                  (Py.lit "doc.pdf")
                  {| pages := Ok [scanned_page; text_page (Py.lit "B")] |}
                  {| pages := Ok [scanned_page; broken_page; broken_page] |}
                  scanned_page [text_page (Py.lit "B")] [broken_page; broken_page]
                  eq_refl eq_refl eq_refl eq_refl (fun _ _ => eq_refl))).
Defined.


(** The diagnostics for the scanned page. *)
Lemma diagnostics_describe_the_entry_witness :
  exists entry cs imgs,
    text scan_result = [entry] /\ chars scanned_page = Ok cs /\
    images scanned_page = Ok imgs /\
    stdout_writes (fst (extract_pdf_info (world_of scan_then_text (Ok (Py.lit "scan")))
                          (Py.lit "doc.pdf")))
    = map (fun l => l ++ Py.nl) (debug_lines 1 entry (length cs) (length imgs)).
Proof.
  exact (@diagnostics_describe_the_entry
           (world_of scan_then_text (Ok (Py.lit "scan"))) (Py.lit "doc.pdf")
           {| pages := Ok scan_then_text |} scanned_page
           [text_page (Py.lit "B"); text_page (Py.lit "C")] scan_result
           eq_refl eq_refl eq_refl).
Defined.

(** Five characters. *)
Lemma short_text_is_one_chunk_witness :
  chunks (Py.lit "first") = [Py.lit "first"].
Proof.
  apply (@short_text_is_one_chunk (Py.lit "first")).
  unfold Py.lit. simpl. lia.
Defined.

(** Two thousand characters. *)
Lemma full_windows_only_witness :
  length (chunks (repeat 97%N 2000)) = 2.
Proof.
  exact (proj1 (@full_windows_only (repeat 97%N 2000) 2 (repeat_length 97%N 2000))).
Defined.


(** Standard input is at its end. *)
Lemma main_prompt_fails_witness :
  main world_missing None
  = ([EvStdout (Py.lit "Enter PDF file path: "); EvLibRaise EOFError;
      EvStderr ((Py.lit "Error: " ++ exc_str EOFError) ++ Py.nl)],
     Raised (SystemExit 1)).
Proof. exact (@main_prompt_fails world_missing EOFError eq_refl). Defined.

(** Three pages on the command line, one block in the report. *)
Lemma report_shows_first_page_only_witness :
  exists entry,
    text scan_result = [entry] /\ num_pages scan_result = 3 /\
    main (world_of scan_then_text (Ok (Py.lit "scan"))) (Some (Py.lit "doc.pdf"))
    = (fst (extract_pdf_info (world_of scan_then_text (Ok (Py.lit "scan")))
              (Py.lit "doc.pdf"))
         ++ report_preamble scan_result
         ++ (if has_content (1, entry) then page_block (1, entry) else []),
       Returned tt).
Proof.
  exact (@report_shows_first_page_only
           (world_of scan_then_text (Ok (Py.lit "scan"))) (Py.lit "doc.pdf")
           {| pages := Ok scan_then_text |} scanned_page
           [text_page (Py.lit "B"); text_page (Py.lit "C")] scan_result
           eq_refl eq_refl eq_refl).
Defined.

(** A scan whose text layer is one space. *)
Lemma whitespace_text_layer_gives_empty_report_witness :
  ocr_calls (fst (extract_pdf_info
                    (world_of [scanned_page_with_space] (Ok (Py.lit "scan")))
                    (Py.lit "scan.pdf"))) = [].
Proof.
  refine (proj1 (proj2 (@whitespace_text_layer_gives_empty_report
            (world_of [scanned_page_with_space] (Ok (Py.lit "scan"))) (Py.lit "scan.pdf")
            {| pages := Ok [scanned_page_with_space] |} scanned_page_with_space []
            (Py.lit " ") [pdf_object 1] [pdf_object 0]
            eq_refl eq_refl eq_refl _ eq_refl eq_refl eq_refl))).
  discriminate.
Defined.

(** A scan on which OCR finds nothing. *)
Lemma blank_ocr_gives_note_without_text_witness :
  stdout_writes (fst (main (world_of [scanned_page] (Ok [])) (Some (Py.lit "scan.pdf"))))
  = stdout_writes (fst (extract_pdf_info (world_of [scanned_page] (Ok []))
                          (Py.lit "scan.pdf")))
    ++ [(Py.lit "Number of pages: " ++ Py.of_nat 1) ++ Py.nl;
        (Py.nl ++ Py.lit
           "Note: This PDF contains images and OCR was used to extract text") ++ Py.nl;
        (Py.nl ++ Py.lit "Text content:") ++ Py.nl].
Proof.
  rewrite (@blank_ocr_gives_note_without_text
             (world_of [scanned_page] (Ok [])) (Py.lit "scan.pdf")
             {| pages := Ok [scanned_page] |} scanned_page [] (pdf_object 0) []
             (pil_image 1) [] [] eq_refl eq_refl (or_introl eq_refl) eq_refl eq_refl
             eq_refl eq_refl eq_refl).
  reflexivity.
Defined.
